(** * funk_svd.dataset: cache resolution and loading of the MovieLens 20M ratings

    A shallow embedding of [src/funk_svd/dataset.py]: the three functions
    [get_data_dir_path], [ml20m_ratings_csv_to_df] and [fetch_ml20m_ratings],
    written over an explicit world (filesystem, process environment and a log
    of the library calls made), followed by the properties of the cache
    resolution state machine and of the table loader. *)

From Stdlib Require Import ZArith List Ascii Floats.SpecFloat.
From stdpp Require Import gmap strings list fin_maps sorting.

Local Open Scope Z_scope.
Local Open Scope string_scope.
Local Open Scope list_scope.

(** ** Data model *)

(** One row of [ratings.csv] after typing: [dtype] gives [np.uint32] to the two
    identifiers and [np.float64] to the rating; the [timestamp] column holds what
    [date_parser] returns, [datetime.fromtimestamp(float(time))]: a naive local
    datetime, kept here as its position on the local wall clock. It is not the
    epoch number written in the file, and the zone decides how the two relate. *)
Record RatingsRecord := mkRating {
  u_id : N;
  i_id : N;
  rating : spec_float;
  timestamp : Z
}.

(** A pandas DataFrame: the rows in order, each carrying its index label. *)
Definition DataFrame := list (nat * RatingsRecord).

(** Filesystem entries: a regular file with its bytes, or a directory. *)
Inductive node :=
| File (data : string)
| Dir.

(** What evaluating [urllib.request.urlopen(url)] and reading the body gives.
    The module runs [import urllib] only, which does not bind the submodule:
    [NoRequestModule] is the interpreter in which no other loaded module has
    imported [urllib.request], where the attribute lookup raises before any
    request is made. [Unreachable] is a request that fails at connection time,
    [Body] one whose body is read, completely or up to a failure. *)
Inductive response :=
| Unreachable
| Body (data : string) (complete : bool)
| NoRequestModule.

(** What [zipfile.ZipFile(path)] followed by [extractall] finds in a file:
    not an archive at all, or a list of members, [intact = false] meaning
    that extraction raises after the listed members have been written. *)
Inductive archive :=
| NotAZip
| Members (ms : list (string * string)) (intact : bool).

(** Python exceptions that the three functions can surface. *)
Inductive exn :=
| RecursionError
| UnboundLocalError (name : string)
| AttributeError (name : string)
| FileNotFoundError (path : string)
| IsADirectoryError (path : string)
| URLError
| IncompleteRead
| BadZipFile
| EmptyDataError
| ParserError.

(** The error kinds of the design. *)
Inductive error_kind :=
| StorageError | TransportError | ArchiveError | DataFormatError | ProgrammingError.

Definition kind_of (e : exn) : error_kind :=
  match e with
  | RecursionError | UnboundLocalError _ | AttributeError _ => ProgrammingError
  | FileNotFoundError _ | IsADirectoryError _ => StorageError
  | URLError | IncompleteRead => TransportError
  | BadZipFile => ArchiveError
  | EmptyDataError | ParserError => DataFormatError
  end.

(** Calls that reach outside the function, in the order they are made. *)
Inductive event :=
| EvMakedirs (path : string)
| EvPrint (msg : string)
| EvReadCsv (path : string)
| EvExtractAll (zip_path dir : string)
| EvRemove (path : string)
| EvUrlopen (url : string)
| EvOpenWb (path : string).

Record world := World {
  fs : gmap string node;
  environ : gmap string string;
  calls : list event
}.

Definition log (e : event) (w : world) : world :=
  World (fs w) (environ w) (calls w ++ [e]).

Definition set_fs (f : gmap string node -> gmap string node) (w : world) : world :=
  World (f (fs w)) (environ w) (calls w).

(** The libraries behind the narrow interfaces: home directory expansion, the
    HTTP transport, the zip reader, the CSV tokenizer (the non-blank records of
    a file, in order) and the typed conversion of one record.
    [empty_data_raises] says what the CSV reader does with a file that has no
    record at all, not even a header: raise [EmptyDataError], or return the
    empty table. That is decided inside pandas, not in dataset.py. *)
Class Platform := {
  expanduser : string -> string;
  urlopen : string -> response;
  zip_read : string -> archive;
  csv_records : string -> list string;
  parse_row : string -> option RatingsRecord;
  empty_data_raises : bool
}.

(** ** A state and exception monad *)

Inductive outcome (A : Type) :=
| Ret (a : A)
| Raise (e : exn).
Arguments Ret {A} a.
Arguments Raise {A} e.

Definition M (A : Type) : Type := world -> outcome A * world.

Definition ret {A} (a : A) : M A := fun w => (Ret a, w).
Definition raise {A} (e : exn) : M A := fun w => (Raise e, w).
Definition bind {A B} (m : M A) (k : A -> M B) : M B :=
  fun w => match m w with
           | (Ret a, w') => k a w'
           | (Raise e, w') => (Raise e, w')
           end.
Definition emit (e : event) : M unit := fun w => (Ret tt, log e w).

Notation "x <- m ;; k" := (bind m (fun x => k))
  (at level 100, m at next level, right associativity).
Notation "m ;;; k" := (bind m (fun _ => k))
  (at level 100, right associativity).

(** ** os.path and os *)

Definition startswith_sep (s : string) : bool :=
  match s with
  | String c _ => bool_decide (c = "/"%char)
  | EmptyString => false
  end.

Fixpoint endswith_sep (s : string) : bool :=
  match s with
  | EmptyString => false
  | String c EmptyString => bool_decide (c = "/"%char)
  | String _ s' => endswith_sep s'
  end.

(** [posixpath.join] of two components. *)
Definition os_path_join (a b : string) : string :=
  if startswith_sep b then b
  else if bool_decide (a = "") || endswith_sep a then a +:+ b
  else a +:+ "/" +:+ b.

Definition os_path_exists (p : string) : M bool :=
  fun w => (Ret (bool_decide (is_Some (fs w !! p))), w).

(** [os.makedirs(p)], as far as this model goes: the entry for [p] itself.
    The intermediate directories that [os.makedirs] also creates are not
    recorded, and of its failures only the one on the empty path is modelled
    (not a parent that is a regular file, nor a directory that cannot be
    written); statements about a call that creates the directory are made
    for the case where it returns. *)
Definition os_makedirs (p : string) : M unit :=
  fun w =>
    if bool_decide (p = "") then (Raise (FileNotFoundError p), log (EvMakedirs p) w)
    else (Ret tt, log (EvMakedirs p) (set_fs <[p := Dir]> w)).

Definition os_remove (p : string) : M unit :=
  fun w =>
    match fs w !! p with
    | Some (File _) => (Ret tt, log (EvRemove p) (set_fs (delete p) w))
    | Some Dir => (Raise (IsADirectoryError p), log (EvRemove p) w)
    | None => (Raise (FileNotFoundError p), log (EvRemove p) w)
    end.

Definition print (msg : string) : M unit := emit (EvPrint msg).

(** Reading a local variable that may not have been assigned. *)
Definition read_local {A} (name : string) (v : option A) : M A :=
  match v with
  | Some a => ret a
  | None => raise (UnboundLocalError name)
  end.

(** ** pandas *)

Fixpoint insert_by_timestamp (r : nat * RatingsRecord) (df : DataFrame) : DataFrame :=
  match df with
  | [] => [r]
  | r' :: df' =>
      if (timestamp (snd r) <=? timestamp (snd r'))%Z then r :: r' :: df'
      else r' :: insert_by_timestamp r df'
  end.

(** [df.sort_values(by="timestamp")]: rows reordered, labels travel with them.
    pandas sorts with quicksort by default and promises no particular order
    among rows with equal timestamps; the order this function gives to such
    rows is one possible outcome and no statement below relies on it. *)
Definition sort_values (df : DataFrame) : DataFrame :=
  foldr insert_by_timestamp [] df.

(** [df.reset_index(drop=True)]. *)
Definition reset_index (df : DataFrame) : DataFrame :=
  combine (seq 0 (length df)) (map snd df).

(** The default RangeIndex given to freshly parsed rows. *)
Definition range_index (rows : list RatingsRecord) : DataFrame :=
  combine (seq 0 (length rows)) rows.

Fixpoint parse_rows `{Platform} (ls : list string) : option (list RatingsRecord) :=
  match ls with
  | [] => Some []
  | l :: ls' =>
      match parse_row l, parse_rows ls' with
      | Some r, Some rs => Some (r :: rs)
      | _, _ => None
      end
  end.

(** [pd.read_csv(..., names=names, dtype=dtype, header=0, parse_dates=..., date_parser=...)]
    on the bytes of a file: record 0 is the header and is replaced by [names]. *)
Definition parse_csv `{Platform} (data : string) : outcome DataFrame :=
  match csv_records data with
  | [] => if empty_data_raises then Raise EmptyDataError else Ret (range_index [])
  | _header :: rows =>
      match parse_rows rows with
      | Some rs => Ret (range_index rs)
      | None => Raise ParserError
      end
  end.

(** The [timestamp] column of a table. *)
Definition timestamps (df : DataFrame) : list Z :=
  map (fun r => timestamp (snd r)) df.

Definition pd_read_csv `{Platform} (csv_path : string) : M DataFrame :=
  fun w =>
    let w' := log (EvReadCsv csv_path) w in
    match fs w !! csv_path with
    | None => (Raise (FileNotFoundError csv_path), w')
    | Some Dir => (Raise (IsADirectoryError csv_path), w')
    | Some (File data) => (parse_csv data, w')
    end.

(** ** zipfile, urllib and shutil *)

Definition write_member (dir : string) (m : gmap string node) (e : string * string)
  : gmap string node :=
  <[os_path_join dir (fst e) := File (snd e)]> m.

Definition write_members (dir : string) (ms : list (string * string))
  (m : gmap string node) : gmap string node :=
  foldl (write_member dir) m ms.

(** [with zipfile.ZipFile(zip_path, "r") as zf: zf.extractall(dir)]. *)
Definition zipfile_extractall `{Platform} (zip_path dir : string) : M unit :=
  fun w =>
    let w' := log (EvExtractAll zip_path dir) w in
    match fs w !! zip_path with
    | None => (Raise (FileNotFoundError zip_path), w')
    | Some Dir => (Raise (IsADirectoryError zip_path), w')
    | Some (File data) =>
        match zip_read data with
        | NotAZip => (Raise BadZipFile, w')
        | Members ms true => (Ret tt, set_fs (write_members dir ms) w')
        | Members ms false => (Raise BadZipFile, set_fs (write_members dir ms) w')
        end
    end.

(** [with urllib.request.urlopen(url) as r, open(zip_path, "wb") as f:
        shutil.copyfileobj(r, f)]:
    the attribute [urllib.request] is looked up first and, when it is not
    bound, the lookup raises [AttributeError] and no request is made; then the
    response is opened, then the file is created, then the body is copied;
    what was received stays in the file when the copy raises.
    Creating the file is taken to succeed. [zip_path] lies directly in the
    data directory, so this is right where that directory is a directory the
    process can write to; the statements that promise a completed resolution
    through a download assume that the data directory is a directory. *)
Definition download `{Platform} (url zip_path : string) : M unit :=
  fun w =>
    match urlopen url with
    | NoRequestModule => (Raise (AttributeError "request"), w)
    | Unreachable => (Raise URLError, log (EvUrlopen url) w)
    | Body data complete =>
        let w1 := log (EvUrlopen url) w in
        let w2 := log (EvOpenWb zip_path) (set_fs <[zip_path := File ""]> w1) in
        let w3 := set_fs <[zip_path := File data]> w2 in
        if complete then (Ret tt, w3) else (Raise IncompleteRead, w3)
    end.

(** ** The three functions of dataset.py *)

Section Dataset.
Context `{Platform}.

Definition get_data_dir_path (data_dir_path : option string) : M string :=
  let data_dir_path :=
    match data_dir_path with
    | None =>
        fun w =>
          let default_ := os_path_join "~" "funk_svd_data" in
          let data_dir_path := default default_ (environ w !! "FUNK_SVD_DATA") in
          (Ret (expanduser data_dir_path), w)
    | Some p => ret p
    end in
  data_dir_path <- data_dir_path ;;
  e <- os_path_exists data_dir_path ;;
  (if negb e then os_makedirs data_dir_path else ret tt) ;;;
  ret data_dir_path.

Definition ml20m_ratings_csv_to_df (csv_path : string) : M DataFrame :=
  df <- pd_read_csv csv_path ;;
  let df := sort_values df in
  let df := reset_index df in
  ret df.

(** The local variables of [fetch_ml20m_ratings] after its first [if]:
    [zip_path] and [url] are assigned in the first branch only. *)
Record locals := Locals {
  l_data_dir_path : string;
  l_csv_path : string;
  l_zip_path : option string;
  l_url : option string
}.

Definition dirname : string := "ml-20m".
Definition filename : string := "ratings.csv".
Definition dataset_url : string :=
  "http://files.grouplens.org/datasets/movielens/ml-20m.zip".

Definition csv_path_of (base : string) : string :=
  os_path_join (os_path_join base dirname) filename.
Definition zip_path_of (base : string) : string :=
  os_path_join base dirname +:+ ".zip".

Definition assign_paths (data_dir_path : option string) : M locals :=
  match data_dir_path with
  | None =>
      data_dir_path <- get_data_dir_path None ;;
      ret (Locals data_dir_path (csv_path_of data_dir_path)
                  (Some (zip_path_of data_dir_path)) (Some dataset_url))
  | Some p => ret (Locals p p None None)
  end.

(** [depth] is the number of frames the interpreter still allows; a call with
    none left raises [RecursionError]. *)
Fixpoint fetch_ml20m_ratings (depth : nat) (data_dir_path : option string)
  : M DataFrame :=
  match depth with
  | O => raise RecursionError
  | S depth =>
      l <- assign_paths data_dir_path ;;
      e <- os_path_exists (l_csv_path l) ;;
      if e then
        df <- ml20m_ratings_csv_to_df (l_csv_path l) ;;
        ret df
      else
        zip_path <- read_local "zip_path" (l_zip_path l) ;;
        e <- os_path_exists zip_path ;;
        if e then
          print "Unzipping data..." ;;;
          zipfile_extractall zip_path (l_data_dir_path l) ;;;
          os_remove zip_path ;;;
          fetch_ml20m_ratings depth None
        else
          print "Downloading data..." ;;;
          url <- read_local "url" (l_url l) ;;
          download url zip_path ;;;
          fetch_ml20m_ratings depth None
  end.

(** The base directory [get_data_dir_path(None)] resolves to in an environment. *)
Definition data_dir_of (env : gmap string string) : string :=
  expanduser (default (os_path_join "~" "funk_svd_data") (env !! "FUNK_SVD_DATA")).

(** The table a file with the given bytes loads as. *)
Definition table_of (data : string) : outcome DataFrame :=
  match parse_csv data with
  | Ret df => Ret (reset_index (sort_values df))
  | Raise e => Raise e
  end.

(** The world right after the extraction call has been issued. *)
Definition unzipping (base : string) (w1 : world) : world :=
  log (EvExtractAll (zip_path_of base) base) (log (EvPrint "Unzipping data...") w1).

(** The world once the archive has been extracted and removed. *)
Definition unzipped (base : string) (ms : list (string * string)) (w1 : world) : world :=
  log (EvRemove (zip_path_of base))
    (set_fs (delete (zip_path_of base))
       (set_fs (write_members base ms) (unzipping base w1))).

(** The world right after the request has been issued. *)
Definition requesting (w1 : world) : world :=
  log (EvUrlopen dataset_url) (log (EvPrint "Downloading data...") w1).

(** The world once [data] has been written to the archive file. *)
Definition downloaded (base data : string) (w1 : world) : world :=
  set_fs <[zip_path_of base := File data]>
    (log (EvOpenWb (zip_path_of base))
       (set_fs <[zip_path_of base := File ""]> (requesting w1))).

(** The ARCHIVE_READY step as the design document words it: the contents go
    into [directory_path], the per-dataset directory under the base. *)
Definition unzipped_into_directory_path (base : string) (ms : list (string * string))
  (w1 : world) : world :=
  let directory_path := os_path_join base dirname in
  log (EvRemove (zip_path_of base))
    (set_fs (delete (zip_path_of base))
       (set_fs (write_members directory_path ms)
          (log (EvExtractAll (zip_path_of base) directory_path)
             (log (EvPrint "Unzipping data...") w1)))).

(** The directory [get_data_dir_path] settles on for an argument. *)
Definition resolved_dir (data_dir_path : option string) (w : world) : string :=
  match data_dir_path with
  | Some p => p
  | None => data_dir_of (environ w)
  end.

(** The calls that acquire data: transport, archive file creation,
    extraction and archive removal. *)
Definition is_acquisition (e : event) : bool :=
  match e with
  | EvExtractAll _ _ | EvRemove _ | EvUrlopen _ | EvOpenWb _ => true
  | EvMakedirs _ | EvPrint _ | EvReadCsv _ => false
  end.

(** [w'] continues the call log of [w]. *)
Definition extends (w w' : world) : Prop :=
  exists evs, calls w' = calls w ++ evs.

End Dataset.


(** ** A concrete platform

    A small executable instance of the interfaces, used to run the functions
    on explicit inputs: records are lines, fields are separated by commas,
    ratings are whole or half stars, the home directory is [/home/user], and
    the remote URL and the archive format are fixed by two parameters. *)

Module Demo.

Fixpoint split_on (sep : ascii) (cur s : string) : list string :=
  match s with
  | EmptyString => [String.rev cur]
  | String c s' =>
      if bool_decide (c = sep) then String.rev cur :: split_on sep "" s'
      else split_on sep (String c cur) s'
  end.

Definition lines (data : string) : list string :=
  filter (fun l => l <> "") (split_on "010"%char "" data).

Fixpoint digits (acc : N) (s : string) : option N :=
  match s with
  | EmptyString => Some acc
  | String c s' =>
      match Ascii.is_nat c with
      | Some d => digits (acc * 10 + N.of_nat d)%N s'
      | None => None
      end
  end.

Definition parse_uint (s : string) : option N :=
  if bool_decide (s = "") then None else digits 0%N s.

Definition parse_uint32 (s : string) : option N :=
  match parse_uint s with
  | Some n => if (n <? 2 ^ 32)%N then Some n else None
  | None => None
  end.

Definition float_of_halves (h : N) : spec_float :=
  match h with
  | N0 => S754_zero false
  | Npos p => S754_finite false p (-1)
  end.

Definition parse_stars (s : string) : option spec_float :=
  match split_on "."%char "" s with
  | [a] => n ← parse_uint a; Some (float_of_halves (2 * n))
  | [a; "0"] => n ← parse_uint a; Some (float_of_halves (2 * n))
  | [a; "5"] => n ← parse_uint a; Some (float_of_halves (2 * n + 1))
  | _ => None
  end.

Definition row_of_line (l : string) : option RatingsRecord :=
  match split_on ","%char "" l with
  | [u; i; r; t] =>
      u ← parse_uint32 u; i ← parse_uint32 i; r ← parse_stars r; t ← parse_uint t;
      Some (mkRating u i r (Z.of_N t))
  | _ => None
  end.

Definition home (s : string) : string :=
  match s with
  | String "~" rest => "/home/user" +:+ rest
  | _ => s
  end.

(** The platform on which the dataset URL answers with [remote] and the only
    well-formed archive is the byte string [zipped], holding [members]. *)
Definition platform (remote : response) (zipped : string)
  (members : list (string * string)) (intact : bool) : Platform :=
  {| expanduser := home;
     urlopen := fun url => if bool_decide (url = dataset_url) then remote else Unreachable;
     zip_read := fun data => if bool_decide (data = zipped) then Members members intact else NotAZip;
     csv_records := lines;
     parse_row := row_of_line;
     empty_data_raises := false |}.

Definition ratings_csv : string :=
  "userId,movieId,rating,timestamp
1,307,3.5,1256677221
1,481,3.5,1256677456
2,1091,1.5,1256677471
4,1257,4.5,1112484727
4,1449,4,1112484703
".

Definition header_only_csv : string :=
  "userId,movieId,rating,timestamp
".

Definition zip_bytes : string := "PK-ml-20m".

Definition zip_members : list (string * string) :=
  [("ml-20m/README.txt", "MovieLens 20M"); ("ml-20m/ratings.csv", ratings_csv)].

Definition base : string := "/home/user/funk_svd_data".
Definition csv_path : string := "/home/user/funk_svd_data/ml-20m/ratings.csv".
Definition zip_path : string := "/home/user/funk_svd_data/ml-20m.zip".

(** The three cache states, and a few others. *)
Definition w_empty : world := World {[ base := Dir ]} ∅ [].
Definition w_fresh : world := World ∅ ∅ [].
Definition w_archive : world :=
  World {[ base := Dir; zip_path := File zip_bytes ]} ∅ [].
Definition w_source : world :=
  World {[ base := Dir; csv_path := File ratings_csv ]} ∅ [].
Definition w_header_only : world :=
  World {[ "/tmp/ratings.csv" := File header_only_csv ]} ∅ [].

(** The data records of [ratings_csv] and the rows they convert to, in file order. *)
Definition ratings_lines : list string :=
  [ "1,307,3.5,1256677221"; "1,481,3.5,1256677456"; "2,1091,1.5,1256677471";
    "4,1257,4.5,1112484727"; "4,1449,4,1112484703" ].

Definition ratings_rows : list RatingsRecord :=
  [ mkRating 1 307 (float_of_halves 7) 1256677221;
    mkRating 1 481 (float_of_halves 7) 1256677456;
    mkRating 2 1091 (float_of_halves 3) 1256677471;
    mkRating 4 1257 (float_of_halves 9) 1112484727;
    mkRating 4 1449 (float_of_halves 8) 1112484703 ].

(** The table [ratings_csv] loads as. *)
Definition ratings_table : DataFrame :=
  [ (0%nat, mkRating 4 1449 (float_of_halves 8) 1112484703);
    (1%nat, mkRating 4 1257 (float_of_halves 9) 1112484727);
    (2%nat, mkRating 1 307 (float_of_halves 7) 1256677221);
    (3%nat, mkRating 1 481 (float_of_halves 7) 1256677456);
    (4%nat, mkRating 2 1091 (float_of_halves 3) 1256677471) ].

(** The platform where everything works. *)
Definition good : Platform := platform (Body zip_bytes true) zip_bytes zip_members true.

(** The connection drops after two bytes of the body. *)
Definition flaky : Platform := platform (Body "PK" false) zip_bytes zip_members true.

(** No connection at all. *)
Definition offline : Platform := platform Unreachable zip_bytes zip_members true.

(** The cached archive is not recognised as a zip file. *)
Definition not_a_zip : Platform := platform Unreachable "PK-other" [] true.

(** The cached archive breaks off after its first member. *)
Definition damaged : Platform :=
  platform Unreachable zip_bytes [("ml-20m/README.txt", "MovieLens 20M")] false.

(** The cached archive breaks off after all listed members were written. *)
Definition damaged_late : Platform := platform Unreachable zip_bytes zip_members false.

(** An interpreter in which [urllib.request] was never imported; the archive
    format is that of [good]. *)
Definition bare : Platform := platform NoRequestModule zip_bytes zip_members true.

(** The data directory path is taken by a regular file. *)
Definition w_base_is_file : world := World {[ base := File "not a directory" ]} ∅ [].

(** The remote archive extracts but holds no ratings file. *)
Definition no_source : Platform :=
  platform (Body zip_bytes true) zip_bytes [("ml-20m/README.txt", "MovieLens 20M")] true.

(** A source file whose rows are already in chronological order. *)
Definition chrono_csv : string :=
  "userId,movieId,rating,timestamp
4,1449,4,1112484703
4,1257,4.5,1112484727
1,307,3.5,1256677221
".

Definition chrono_lines : list string :=
  [ "4,1449,4,1112484703"; "4,1257,4.5,1112484727"; "1,307,3.5,1256677221" ].

Definition chrono_rows : list RatingsRecord :=
  [ mkRating 4 1449 (float_of_halves 8) 1112484703;
    mkRating 4 1257 (float_of_halves 9) 1112484727;
    mkRating 1 307 (float_of_halves 7) 1256677221 ].

Definition w_chrono : world :=
  World {[ "/tmp/chrono.csv" := File chrono_csv ]} ∅ [].

End Demo.
(** ** Paths *)

Section Paths.

Lemma string_app_nil_r (s : string) : s +:+ "" = s.
Proof. induction s as [|c s IH]; [reflexivity|]. change (String c (s +:+ "") = String c s). by rewrite IH. Qed.

Lemma string_app_assoc (s t u : string) : (s +:+ t) +:+ u = s +:+ t +:+ u.
Proof.
  induction s as [|c s IH]; [reflexivity|].
  change (String c ((s +:+ t) +:+ u) = String c (s +:+ t +:+ u)). by rewrite IH.
Qed.

Lemma string_app_eq_nil (s t : string) : s +:+ t = "" -> s = "" /\ t = "".
Proof.
  destruct s as [|c s]; intros E.
  - split; [reflexivity | exact E].
  - change (String c (s +:+ t) = "") in E. discriminate.
Qed.

Lemma string_app_fixed (s t : string) : s +:+ t = s -> t = "".
Proof. intros E. apply (String.app_inj s). by rewrite string_app_nil_r. Qed.

Lemma endswith_sep_app (s t : string) :
  t <> "" -> endswith_sep (s +:+ t) = endswith_sep t.
Proof.
  intros Ht. induction s as [|c s IH]; [reflexivity|].
  change (endswith_sep (String c (s +:+ t)) = endswith_sep t).
  destruct (s +:+ t) eqn:E.
  - apply string_app_eq_nil in E as [_ ?]. contradiction.
  - rewrite <- IH. reflexivity.
Qed.

End Paths.

Section CachePaths.

Lemma cache_paths_shape (base : string) :
  exists s1, (s1 = "ml-20m" \/ s1 = "/ml-20m") /\
    csv_path_of base = base +:+ s1 +:+ "/ratings.csv" /\
    zip_path_of base = base +:+ s1 +:+ ".zip".
Proof.
  assert (HD : exists s1, (s1 = "ml-20m" \/ s1 = "/ml-20m") /\
                 os_path_join base dirname = base +:+ s1).
  { unfold os_path_join, dirname. simpl startswith_sep. cbv iota.
    destruct (bool_decide (base = "") || endswith_sep base); eauto. }
  destruct HD as (s1 & Hs1 & HD). exists s1. split; [exact Hs1|].
  assert (Hne : s1 <> "") by (destruct Hs1 as [-> | ->]; discriminate).
  assert (He : endswith_sep s1 = false) by (destruct Hs1 as [-> | ->]; reflexivity).
  unfold csv_path_of, zip_path_of. rewrite HD. split.
  - unfold os_path_join, filename. simpl startswith_sep. cbv iota.
    rewrite endswith_sep_app, He by exact Hne.
    rewrite bool_decide_eq_false_2.
    + simpl orb. cbv iota. apply string_app_assoc.
    + intros E. apply string_app_eq_nil in E as [_ E]. contradiction.
  - apply string_app_assoc.
Qed.

Lemma csv_path_ne_zip_path (base : string) : csv_path_of base <> zip_path_of base.
Proof.
  destruct (cache_paths_shape base) as (s1 & Hs1 & -> & ->).
  intros E. apply (String.app_inj base) in E.
  destruct Hs1 as [-> | ->]; discriminate E.
Qed.

Lemma csv_path_ne_base (base : string) : csv_path_of base <> base.
Proof.
  destruct (cache_paths_shape base) as (s1 & Hs1 & -> & _).
  intros E. apply string_app_fixed in E.
  destruct Hs1 as [-> | ->]; discriminate E.
Qed.

Lemma zip_path_ne_base (base : string) : zip_path_of base <> base.
Proof.
  destruct (cache_paths_shape base) as (s1 & Hs1 & _ & ->).
  intros E. apply string_app_fixed in E.
  destruct Hs1 as [-> | ->]; discriminate E.
Qed.

End CachePaths.

(** ** The table loader *)

Section Loader.

Lemma insert_by_timestamp_perm (r : nat * RatingsRecord) (df : DataFrame) :
  insert_by_timestamp r df ≡ₚ r :: df.
Proof.
  induction df as [|r' df IH]; simpl; [done|].
  destruct (timestamp (snd r) <=? timestamp (snd r'))%Z; [done|].
  rewrite IH. apply Permutation_swap.
Qed.

Lemma sort_values_perm (df : DataFrame) : sort_values df ≡ₚ df.
Proof.
  induction df as [|r df IH]; simpl; [done|].
  fold (sort_values df). by rewrite insert_by_timestamp_perm, IH.
Qed.

Lemma insert_by_timestamp_sorted (r : nat * RatingsRecord) (df : DataFrame) :
  StronglySorted Z.le (timestamps df) ->
  StronglySorted Z.le (timestamps (insert_by_timestamp r df)).
Proof.
  induction df as [|r' df IH]; simpl; intros Hs.
  - repeat constructor.
  - apply StronglySorted_cons in Hs as [Hall Hs].
    destruct (Z.leb_spec (timestamp (snd r)) (timestamp (snd r'))) as [Hle|Hgt]; simpl.
    + apply StronglySorted_cons. split.
      * constructor; [exact Hle|].
        eapply Forall_impl; [exact Hall|]. intros t Ht. simpl in Ht. lia.
      * apply StronglySorted_cons. by split.
    + apply StronglySorted_cons. split; [|by apply IH].
      change (Forall (Z.le (timestamp (snd r'))) (timestamps (insert_by_timestamp r df))).
      unfold timestamps. rewrite (insert_by_timestamp_perm r df). simpl.
      constructor; [lia | exact Hall].
Qed.

Lemma sort_values_sorted (df : DataFrame) :
  StronglySorted Z.le (timestamps (sort_values df)).
Proof.
  induction df as [|r df IH]; simpl; [constructor|].
  by apply insert_by_timestamp_sorted.
Qed.

Lemma fst_combine_seq {A} (l : list A) (k : nat) :
  map fst (combine (seq k (length l)) l) = seq k (length l).
Proof. revert k. induction l as [|a l IH]; intros k; simpl; [done|]. by rewrite IH. Qed.

Lemma snd_combine_seq {A} (l : list A) (k : nat) :
  map snd (combine (seq k (length l)) l) = l.
Proof. revert k. induction l as [|a l IH]; intros k; simpl; [done|]. by rewrite IH. Qed.

Lemma reset_index_labels (df : DataFrame) :
  map fst (reset_index df) = seq 0 (length df).
Proof.
  unfold reset_index. rewrite <- (length_map snd df) at 1.
  rewrite fst_combine_seq. by rewrite length_map.
Qed.

Lemma reset_index_rows (df : DataFrame) : map snd (reset_index df) = map snd df.
Proof.
  unfold reset_index. rewrite <- (length_map snd df). apply snd_combine_seq.
Qed.

Lemma reset_index_timestamps (df : DataFrame) :
  timestamps (reset_index df) = timestamps df.
Proof.
  unfold timestamps.
  rewrite <- (map_map snd timestamp), reset_index_rows. apply map_map.
Qed.

Lemma reset_index_length (df : DataFrame) : length (reset_index df) = length df.
Proof. rewrite <- (length_map fst), reset_index_labels. apply length_seq. Qed.

Context `{Platform}.

Lemma ml20m_ratings_csv_to_df_file (p data : string) (w : world) :
  fs w !! p = Some (File data) ->
  ml20m_ratings_csv_to_df p w = (table_of data, log (EvReadCsv p) w).
Proof.
  intros Hp. unfold ml20m_ratings_csv_to_df, bind, pd_read_csv, table_of.
  rewrite Hp. by destruct (parse_csv data).
Qed.

Lemma ml20m_ratings_csv_to_df_world (p : string) (w : world) :
  snd (ml20m_ratings_csv_to_df p w) = log (EvReadCsv p) w.
Proof.
  unfold ml20m_ratings_csv_to_df, bind, pd_read_csv.
  destruct (fs w !! p) as [[data|]|]; simpl; try done.
  by destruct (parse_csv data).
Qed.

End Loader.

(** ** The resolution state machine, step by step *)

Section Steps.
Context `{Platform}.

Lemma get_data_dir_path_None (w : world) :
  get_data_dir_path None w =
    let base := data_dir_of (environ w) in
    match fs w !! base with
    | Some _ => (Ret base, w)
    | None =>
        if bool_decide (base = "") then (Raise (FileNotFoundError base), log (EvMakedirs base) w)
        else (Ret base, log (EvMakedirs base) (set_fs <[base := Dir]> w))
    end.
Proof.
  unfold get_data_dir_path, bind, os_path_exists, os_makedirs, ret, data_dir_of. simpl.
  destruct (fs w !! _) as [n|] eqn:E; simpl.
  - reflexivity.
  - by destruct (bool_decide _).
Qed.

(** What locating the cache directory establishes. *)
Lemma get_data_dir_path_Ret (w w1 : world) (base : string) :
  get_data_dir_path None w = (Ret base, w1) ->
  base = data_dir_of (environ w) /\
  environ w1 = environ w /\
  is_Some (fs w1 !! base) /\
  (forall p, p <> base -> fs w1 !! p = fs w !! p) /\
  (is_Some (fs w !! base) -> w1 = w).
Proof.
  rewrite get_data_dir_path_None. cbv zeta.
  destruct (fs w !! data_dir_of (environ w)) as [n|] eqn:E.
  - intros [= <- <-]. rewrite E. eauto 10.
  - destruct (bool_decide _); [discriminate|]. intros [= <- <-]. simpl.
    rewrite lookup_insert_eq. repeat split; eauto.
    + intros p Hp. by rewrite lookup_insert_ne.
    + rewrite E. by intros [? ?].
Qed.

(** Once the directory exists, locating it again changes nothing. *)
Lemma get_data_dir_path_stable (w : world) (base : string) :
  base = data_dir_of (environ w) -> is_Some (fs w !! base) ->
  get_data_dir_path None w = (Ret base, w).
Proof.
  intros -> [n Hn]. rewrite get_data_dir_path_None. cbv zeta. by rewrite Hn.
Qed.

Lemma get_data_dir_path_csv (w w1 : world) (base : string) :
  get_data_dir_path None w = (Ret base, w1) ->
  fs w1 !! csv_path_of base = fs w !! csv_path_of base.
Proof.
  intros Hg. apply get_data_dir_path_Ret in Hg as (_ & _ & _ & Hfr & _).
  apply Hfr, csv_path_ne_base.
Qed.

Lemma get_data_dir_path_zip (w w1 : world) (base : string) :
  get_data_dir_path None w = (Ret base, w1) ->
  fs w1 !! zip_path_of base = fs w !! zip_path_of base.
Proof.
  intros Hg. apply get_data_dir_path_Ret in Hg as (_ & _ & _ & Hfr & _).
  apply Hfr, zip_path_ne_base.
Qed.

Lemma bind_ret_r {A} (m : M A) (w : world) : (x <- m ;; ret x) w = m w.
Proof. unfold bind, ret. by destruct (m w) as [[a|e] w']. Qed.

(** Override mode, path present: straight to the loader. *)
Lemma fetch_override_present (d : nat) (p : string) (w : world) :
  is_Some (fs w !! p) ->
  fetch_ml20m_ratings (S d) (Some p) w = ml20m_ratings_csv_to_df p w.
Proof.
  intros Hp. cbn [fetch_ml20m_ratings assign_paths].
  unfold bind at 1. unfold ret at 1. unfold bind at 1. unfold os_path_exists at 1.
  cbn [l_csv_path]. rewrite bool_decide_eq_true_2 by exact Hp.
  apply bind_ret_r.
Qed.

(** Override mode, path absent: [zip_path] is read before it was ever assigned. *)
Lemma fetch_override_absent (d : nat) (p : string) (w : world) :
  fs w !! p = None ->
  fetch_ml20m_ratings (S d) (Some p) w = (Raise (UnboundLocalError "zip_path"), w).
Proof.
  intros Hp. cbn [fetch_ml20m_ratings assign_paths].
  unfold bind at 1. unfold ret at 1. unfold bind at 1. unfold os_path_exists at 1.
  cbn [l_csv_path]. rewrite bool_decide_eq_false_2 by (rewrite Hp; by intros [? ?]).
  reflexivity.
Qed.

(** Default mode: the directory cannot be located. *)
Lemma fetch_no_directory (d : nat) (w w1 : world) (e : exn) :
  get_data_dir_path None w = (Raise e, w1) ->
  fetch_ml20m_ratings (S d) None w = (Raise e, w1).
Proof.
  intros Hg. cbn [fetch_ml20m_ratings assign_paths].
  unfold bind at 1. unfold bind at 1. by rewrite Hg.
Qed.

(** SOURCE_READY. *)
Lemma fetch_source_ready (d : nat) (w w1 : world) (base : string) :
  get_data_dir_path None w = (Ret base, w1) ->
  is_Some (fs w1 !! csv_path_of base) ->
  fetch_ml20m_ratings (S d) None w = ml20m_ratings_csv_to_df (csv_path_of base) w1.
Proof.
  intros Hg Hp. cbn [fetch_ml20m_ratings assign_paths].
  unfold bind at 1. unfold bind at 1. rewrite Hg.
  unfold ret at 1. unfold bind at 1. unfold os_path_exists at 1.
  cbn [l_csv_path]. rewrite bool_decide_eq_true_2 by exact Hp.
  apply bind_ret_r.
Qed.

End Steps.

Section Archive.
Context `{Platform}.

Lemma write_members_snoc (dir : string) (ms : list (string * string))
  (e : string * string) (m : gmap string node) :
  write_members dir (ms ++ [e]) m = write_member dir (write_members dir ms m) e.
Proof. unfold write_members. by rewrite foldl_app. Qed.

(** Unzipping only adds regular files. *)
Lemma write_members_file (dir : string) (ms : list (string * string))
  (m : gmap string node) (p : string) :
  (exists z, m !! p = Some (File z)) ->
  exists z, write_members dir ms m !! p = Some (File z).
Proof.
  revert m. induction ms as [|e ms IH]; intros m Hm; [exact Hm|].
  simpl. apply IH. unfold write_member.
  destruct (decide (os_path_join dir (fst e) = p)) as [<-|Hne].
  - rewrite lookup_insert_eq. eauto.
  - by rewrite lookup_insert_ne.
Qed.

Lemma write_members_is_Some (dir : string) (ms : list (string * string))
  (m : gmap string node) (p : string) :
  is_Some (m !! p) -> is_Some (write_members dir ms m !! p).
Proof.
  revert m. induction ms as [|e ms IH]; intros m Hm; [exact Hm|].
  simpl. apply IH. unfold write_member.
  destruct (decide (os_path_join dir (fst e) = p)) as [<-|Hne].
  - rewrite lookup_insert_eq. eauto.
  - by rewrite lookup_insert_ne.
Qed.

(** What extraction leaves at a path depends on the archive alone when the
    archive has a member for it, and is the old entry otherwise. *)
Lemma write_members_lookup (dir : string) (ms : list (string * string))
  (m : gmap string node) (p : string) :
  write_members dir ms m !! p =
    match write_members dir ms ∅ !! p with
    | Some n => Some n
    | None => m !! p
    end.
Proof.
  induction ms as [|e ms IH] using rev_ind.
  { unfold write_members. simpl. by rewrite lookup_empty. }
  rewrite !write_members_snoc. unfold write_member.
  destruct (decide (os_path_join dir (fst e) = p)) as [<-|Hne].
  - by rewrite !lookup_insert_eq.
  - by rewrite !lookup_insert_ne.
Qed.

(** ARCHIVE_READY. *)
Lemma fetch_archive_ready (d : nat) (w w1 : world) (base : string) (nd : node) :
  get_data_dir_path None w = (Ret base, w1) ->
  fs w1 !! csv_path_of base = None ->
  fs w1 !! zip_path_of base = Some nd ->
  fetch_ml20m_ratings (S d) None w =
    match nd with
    | Dir => (Raise (IsADirectoryError (zip_path_of base)), unzipping base w1)
    | File z =>
        match zip_read z with
        | NotAZip => (Raise BadZipFile, unzipping base w1)
        | Members ms false =>
            (Raise BadZipFile, set_fs (write_members base ms) (unzipping base w1))
        | Members ms true => fetch_ml20m_ratings d None (unzipped base ms w1)
        end
    end.
Proof.
  intros Hg Hc Hz. cbn [fetch_ml20m_ratings assign_paths].
  unfold bind at 1. unfold bind at 1. rewrite Hg.
  unfold ret at 1. unfold bind at 1. unfold os_path_exists at 1.
  cbn [l_csv_path l_zip_path l_data_dir_path].
  rewrite bool_decide_eq_false_2 by (rewrite Hc; by intros [? ?]).
  unfold read_local. unfold bind at 1. unfold ret at 1.
  unfold bind at 1. unfold os_path_exists at 1.
  rewrite bool_decide_eq_true_2 by (rewrite Hz; eauto).
  unfold bind at 1. unfold print, emit.
  unfold bind at 1. unfold zipfile_extractall. cbn [fs log].
  rewrite Hz. fold (unzipping base w1).
  destruct nd as [z|]; [|reflexivity].
  destruct (zip_read z) as [|ms [|]]; try reflexivity.
  unfold bind at 1. unfold os_remove. cbn [fs set_fs].
  destruct (write_members_file base ms (fs (unzipping base w1)) (zip_path_of base))
    as [z' Hz']; [exists z; exact Hz|].
  rewrite Hz'. reflexivity.
Qed.

(** EMPTY. *)
Lemma fetch_empty (d : nat) (w w1 : world) (base : string) :
  get_data_dir_path None w = (Ret base, w1) ->
  fs w1 !! csv_path_of base = None ->
  fs w1 !! zip_path_of base = None ->
  fetch_ml20m_ratings (S d) None w =
    match urlopen dataset_url with
    | Unreachable => (Raise URLError, requesting w1)
    | Body data true => fetch_ml20m_ratings d None (downloaded base data w1)
    | Body data false => (Raise IncompleteRead, downloaded base data w1)
    | NoRequestModule =>
        (Raise (AttributeError "request"), log (EvPrint "Downloading data...") w1)
    end.
Proof.
  intros Hg Hc Hz. cbn [fetch_ml20m_ratings assign_paths].
  unfold bind at 1. unfold bind at 1. rewrite Hg.
  unfold ret at 1. unfold bind at 1. unfold os_path_exists at 1.
  cbn [l_csv_path l_zip_path l_data_dir_path l_url].
  rewrite bool_decide_eq_false_2 by (rewrite Hc; by intros [? ?]).
  unfold read_local. unfold bind at 1. unfold ret at 1.
  unfold bind at 1. unfold os_path_exists at 1.
  rewrite bool_decide_eq_false_2 by (rewrite Hz; by intros [? ?]).
  unfold bind at 1. unfold print, emit.
  unfold bind at 1. unfold ret at 1.
  unfold bind at 1. unfold download.
  fold (requesting w1).
  destruct (urlopen dataset_url) as [|data [|]|]; reflexivity.
Qed.

End Archive.

(** ** The call log only grows *)

Section CallLog.
Context `{Platform}.

Lemma extends_refl (w : world) : extends w w.
Proof. exists []. by rewrite app_nil_r. Qed.

Lemma extends_trans (w1 w2 w3 : world) : extends w1 w2 -> extends w2 w3 -> extends w1 w3.
Proof. intros [e1 H1] [e2 H2]. exists (e1 ++ e2). by rewrite H2, H1, app_assoc. Qed.

Lemma extends_log (e : event) (w w' : world) : extends w w' -> extends w (log e w').
Proof. intros [evs Hw]. exists (evs ++ [e]). simpl. by rewrite Hw, app_assoc. Qed.

Lemma extends_set_fs (f : gmap string node -> gmap string node) (w w' : world) :
  extends w w' -> extends w (set_fs f w').
Proof. intros [evs Hw]. by exists evs. Qed.

Lemma get_data_dir_path_extends (w : world) :
  extends w (snd (get_data_dir_path None w)).
Proof.
  rewrite get_data_dir_path_None. cbv zeta.
  destruct (fs w !! _); [apply extends_refl|].
  destruct (bool_decide _); simpl;
    repeat first [apply extends_log | apply extends_set_fs | apply extends_refl].
Qed.

Lemma get_data_dir_path_calls (w w1 : world) (base : string) :
  get_data_dir_path None w = (Ret base, w1) ->
  calls w1 = calls w \/ calls w1 = calls w ++ [EvMakedirs base].
Proof.
  intros Hg. pose proof Hg as Hb. apply get_data_dir_path_Ret in Hb as (-> & _).
  revert Hg. rewrite get_data_dir_path_None. cbv zeta.
  destruct (fs w !! _); [intros [= <-]; by left|].
  destruct (bool_decide _); [discriminate|]. intros [= <-]. by right.
Qed.

Lemma fetch_extends (d : nat) (a : option string) (w : world) :
  extends w (snd (fetch_ml20m_ratings d a w)).
Proof.
  revert a w. induction d as [|d IH]; intros a w; [apply extends_refl|].
  destruct a as [p|].
  - destruct (fs w !! p) as [n|] eqn:Hp.
    + rewrite fetch_override_present by eauto.
      rewrite ml20m_ratings_csv_to_df_world. apply extends_log, extends_refl.
    + rewrite fetch_override_absent by exact Hp. apply extends_refl.
  - pose proof (get_data_dir_path_extends w) as Hext.
    destruct (get_data_dir_path None w) as [[base|e] w1] eqn:Hg; simpl in Hext;
      [|rewrite (fetch_no_directory d w w1 e Hg); exact Hext].
    eapply extends_trans; [exact Hext|].
    destruct (fs w1 !! csv_path_of base) as [n|] eqn:Hc.
    { rewrite (fetch_source_ready d w w1 base Hg) by eauto.
      rewrite ml20m_ratings_csv_to_df_world. apply extends_log, extends_refl. }
    destruct (fs w1 !! zip_path_of base) as [nd|] eqn:Hz.
    + rewrite (fetch_archive_ready d w w1 base nd Hg Hc Hz).
      destruct nd as [z|]; [destruct (zip_read z) as [|ms [|]]|]; simpl;
        try (eapply extends_trans; [|apply IH]);
        unfold unzipped, unzipping;
        repeat first [apply extends_log | apply extends_set_fs | apply extends_refl].
    + rewrite (fetch_empty d w w1 base Hg Hc Hz).
      destruct (urlopen dataset_url) as [|data [|]|]; simpl;
        try (eapply extends_trans; [|apply IH]);
        unfold downloaded, requesting;
        repeat first [apply extends_log | apply extends_set_fs | apply extends_refl].
Qed.

End CallLog.

(** ** What a call that returns has established *)

Section Returns.
Context `{Platform}.

Lemma ml20m_ratings_csv_to_df_Ret (p : string) (w w' : world) (df : DataFrame) :
  ml20m_ratings_csv_to_df p w = (Ret df, w') ->
  exists data, fs w !! p = Some (File data) /\ table_of data = Ret df /\
               w' = log (EvReadCsv p) w.
Proof.
  unfold ml20m_ratings_csv_to_df, bind, pd_read_csv, table_of, ret.
  destruct (fs w !! p) as [[data|]|]; try discriminate.
  destruct (parse_csv data) as [df0|e] eqn:E; [|discriminate].
  intros [= <- <-]. exists data. by rewrite E.
Qed.

Lemma unzipped_zip_gone (base : string) (ms : list (string * string)) (w1 : world) :
  fs (unzipped base ms w1) !! zip_path_of base = None.
Proof. simpl. apply lookup_delete_eq. Qed.

Lemma unzipped_lookup (base : string) (ms : list (string * string)) (w1 : world)
  (p : string) :
  p <> zip_path_of base ->
  fs (unzipped base ms w1) !! p = write_members base ms (fs w1) !! p.
Proof. intros Hp. simpl. by rewrite lookup_delete_ne. Qed.

Lemma downloaded_lookup (base data : string) (w1 : world) (p : string) :
  p <> zip_path_of base -> fs (downloaded base data w1) !! p = fs w1 !! p.
Proof. intros Hp. simpl. by rewrite !lookup_insert_ne. Qed.

Lemma downloaded_zip (base data : string) (w1 : world) :
  fs (downloaded base data w1) !! zip_path_of base = Some (File data).
Proof. simpl. by rewrite lookup_insert_eq. Qed.

Lemma fetch_default_returns (d : nat) (w w' : world) (df : DataFrame) :
  fetch_ml20m_ratings d None w = (Ret df, w') ->
  let base := data_dir_of (environ w) in
  environ w' = environ w /\
  is_Some (fs w' !! base) /\
  (exists data, fs w' !! csv_path_of base = Some (File data) /\ table_of data = Ret df) /\
  (fs w !! zip_path_of base = None \/ fs w !! csv_path_of base = None ->
   fs w' !! zip_path_of base = None).
Proof.
  revert w w' df. induction d as [|d IH]; intros w w' df; [discriminate|].
  destruct (get_data_dir_path None w) as [[base|e] w1] eqn:Hg;
    [|rewrite (fetch_no_directory d w w1 e Hg); discriminate].
  pose proof (get_data_dir_path_csv _ _ _ Hg) as Hcsv.
  pose proof (get_data_dir_path_zip _ _ _ Hg) as Hzip.
  destruct (get_data_dir_path_Ret _ _ _ Hg) as (Hb & Henv & Hdir & _ & _).
  cbv zeta. rewrite <- Hb. clear Hb.
  destruct (fs w1 !! csv_path_of base) as [n|] eqn:Hc.
  { rewrite (fetch_source_ready d w w1 base Hg) by eauto.
    intros (data & Hd & Ht & ->)%ml20m_ratings_csv_to_df_Ret. simpl.
    repeat split; eauto.
    intros [Hz|Hz]; congruence. }
  destruct (fs w1 !! zip_path_of base) as [nd|] eqn:Hz.
  - rewrite (fetch_archive_ready d w w1 base nd Hg Hc Hz).
    destruct nd as [z|]; [|discriminate].
    destruct (zip_read z) as [|ms [|]]; try discriminate.
    intros Hrec. apply IH in Hrec. cbv zeta in Hrec.
    change (environ (unzipped base ms w1)) with (environ w1) in Hrec.
    rewrite Henv in Hrec.
    assert (Hb : data_dir_of (environ w) = base)
      by (by destruct (get_data_dir_path_Ret _ _ _ Hg) as (-> & _)).
    rewrite Hb in Hrec. destruct Hrec as (He & Hd & Hdata & Hgone).
    repeat split; eauto. intros _. apply Hgone. left. apply unzipped_zip_gone.
  - rewrite (fetch_empty d w w1 base Hg Hc Hz).
    destruct (urlopen dataset_url) as [|data [|]|]; try discriminate.
    intros Hrec. apply IH in Hrec. cbv zeta in Hrec.
    change (environ (downloaded base data w1)) with (environ w1) in Hrec.
    rewrite Henv in Hrec.
    assert (Hb : data_dir_of (environ w) = base)
      by (by destruct (get_data_dir_path_Ret _ _ _ Hg) as (-> & _)).
    rewrite Hb in Hrec. destruct Hrec as (He & Hd & Hdata & Hgone).
    repeat split; eauto. intros _. apply Hgone. right.
    rewrite downloaded_lookup by apply csv_path_ne_zip_path. exact Hc.
Qed.

End Returns.

(** ** Properties of the table loader *)

Section LoaderClaims.
Context `{Platform}.

Lemma range_index_rows (rows : list RatingsRecord) : map snd (range_index rows) = rows.
Proof. apply snd_combine_seq. Qed.

Lemma range_index_length (rows : list RatingsRecord) :
  length (range_index rows) = length rows.
Proof. rewrite <- (length_map snd), range_index_rows. reflexivity. Qed.

Lemma parse_csv_error_kind (data : string) (e : exn) :
  parse_csv data = Raise e -> kind_of e = DataFormatError.
Proof.
  unfold parse_csv. destruct (csv_records data) as [|hd ls].
  - destruct empty_data_raises; [by intros [= <-] | discriminate].
  - destruct (parse_rows ls); [discriminate|]. by intros [= <-].
Qed.

(** C3. Whatever the order of the data rows in the source file, the loader
    returns a table whose timestamps are ascending and whose index is
    0, 1, 2, ..., one label per data row; the rows themselves are those of
    the file, rearranged. *)
Theorem loaded_table_sorted_contiguous (w : world) (p data header : string)
  (ls : list string) (rows : list RatingsRecord) :
  fs w !! p = Some (File data) ->
  csv_records data = header :: ls ->
  parse_rows ls = Some rows ->
  exists df,
    ml20m_ratings_csv_to_df p w = (Ret df, log (EvReadCsv p) w) /\
    StronglySorted Z.le (timestamps df) /\
    map fst df = seq 0 (length rows) /\
    map snd df ≡ₚ rows.
Proof.
  intros Hp Hrec Hrows.
  exists (reset_index (sort_values (range_index rows))). split; [|split; [|split]].
  - rewrite (ml20m_ratings_csv_to_df_file p data w Hp).
    unfold table_of, parse_csv. by rewrite Hrec, Hrows.
  - rewrite reset_index_timestamps. apply sort_values_sorted.
  - rewrite reset_index_labels.
    by rewrite (Permutation_length (sort_values_perm _)), range_index_length.
  - rewrite reset_index_rows.
    rewrite (sort_values_perm (range_index rows)). by rewrite range_index_rows.
Qed.

(** C9. A source file holding the header row and nothing else loads as the
    empty table; no error is raised. *)
Theorem header_only_file_loads_empty (w : world) (p data header : string) :
  fs w !! p = Some (File data) ->
  csv_records data = [header] ->
  ml20m_ratings_csv_to_df p w = (Ret [], log (EvReadCsv p) w).
Proof.
  intros Hp Hrec. rewrite (ml20m_ratings_csv_to_df_file p data w Hp).
  unfold table_of, parse_csv. by rewrite Hrec.
Qed.

End LoaderClaims.

Lemma loaded_table_sorted_contiguous_witness :
  exists df,
    @ml20m_ratings_csv_to_df Demo.good Demo.csv_path Demo.w_source =
      (Ret df, log (EvReadCsv Demo.csv_path) Demo.w_source) /\
    StronglySorted Z.le (timestamps df) /\
    map fst df = seq 0 (length Demo.ratings_rows) /\
    map snd df ≡ₚ Demo.ratings_rows.
Proof.
  apply (@loaded_table_sorted_contiguous Demo.good Demo.w_source Demo.csv_path
           Demo.ratings_csv "userId,movieId,rating,timestamp"
           Demo.ratings_lines Demo.ratings_rows).
  - vm_compute. reflexivity.
  - vm_compute. reflexivity.
  - vm_compute. reflexivity.
Defined.

Lemma header_only_file_loads_empty_witness :
  @ml20m_ratings_csv_to_df Demo.good "/tmp/ratings.csv" Demo.w_header_only =
    (Ret [], log (EvReadCsv "/tmp/ratings.csv") Demo.w_header_only).
Proof.
  apply (@header_only_file_loads_empty Demo.good Demo.w_header_only "/tmp/ratings.csv"
           Demo.header_only_csv "userId,movieId,rating,timestamp").
  - vm_compute. reflexivity.
  - vm_compute. reflexivity.
Defined.

(** ** Override mode *)

Section OverrideClaims.
Context `{Platform}.

(** C1, as the code has it. In override mode the supplied path is tested for
    existence first; when it exists the call goes straight to the loader, does
    nothing else, and a file the parser rejects surfaces as that data-format
    error. *)
Theorem override_present_path_loaded (d : nat) (p : string) (w : world) :
  is_Some (fs w !! p) ->
  fetch_ml20m_ratings (S d) (Some p) w = ml20m_ratings_csv_to_df p w /\
  snd (fetch_ml20m_ratings (S d) (Some p) w) = log (EvReadCsv p) w /\
  (forall data e,
     fs w !! p = Some (File data) -> parse_csv data = Raise e ->
     fst (fetch_ml20m_ratings (S d) (Some p) w) = Raise e /\
     kind_of e = DataFormatError).
Proof.
  intros Hp. rewrite (fetch_override_present d p w Hp).
  split; [reflexivity|]. split; [apply ml20m_ratings_csv_to_df_world|].
  intros data e Hdata He. rewrite (ml20m_ratings_csv_to_df_file p data w Hdata).
  unfold table_of. rewrite He. split; [reflexivity|].
  by apply (parse_csv_error_kind data).
Qed.

(** C10. In override mode, a path that does not exist makes the call raise
    the error of reading the never assigned local [zip_path]; the world is
    left as it was: no directory was located, nothing was downloaded or
    extracted. *)
Theorem override_missing_path_unbound_zip_path (d : nat) (p : string) (w : world) :
  fs w !! p = None ->
  fetch_ml20m_ratings (S d) (Some p) w = (Raise (UnboundLocalError "zip_path"), w).
Proof. apply fetch_override_absent. Qed.

End OverrideClaims.

Lemma override_present_path_loaded_witness :
  @fetch_ml20m_ratings Demo.good 1 (Some "/tmp/ratings.csv") Demo.w_header_only =
    @ml20m_ratings_csv_to_df Demo.good "/tmp/ratings.csv" Demo.w_header_only.
Proof.
  apply (@override_present_path_loaded Demo.good 0 "/tmp/ratings.csv" Demo.w_header_only).
  vm_compute. eauto.
Defined.

Lemma override_missing_path_unbound_zip_path_witness :
  @fetch_ml20m_ratings Demo.good 1 (Some "/data/missing.csv") Demo.w_source =
    (Raise (UnboundLocalError "zip_path"), Demo.w_source).
Proof.
  apply (@override_missing_path_unbound_zip_path Demo.good 0 "/data/missing.csv"
           Demo.w_source).
  vm_compute. reflexivity.
Defined.

(** C1 as stated fails: with a path that does not exist the loader is never
    reached, and what is raised is not a data-format error. *)
Lemma override_missing_path_never_loaded :
  @fetch_ml20m_ratings Demo.good 1 (Some "/data/missing.csv") Demo.w_source <>
    @ml20m_ratings_csv_to_df Demo.good "/data/missing.csv" Demo.w_source /\
  fst (@fetch_ml20m_ratings Demo.good 1 (Some "/data/missing.csv") Demo.w_source) =
    Raise (UnboundLocalError "zip_path") /\
  kind_of (UnboundLocalError "zip_path") <> DataFormatError /\
  calls (snd (@fetch_ml20m_ratings Demo.good 1 (Some "/data/missing.csv") Demo.w_source)) = [].
Proof.
  split; [|split; [|split]].
  - intros E. apply (f_equal fst) in E. vm_compute in E. discriminate E.
  - vm_compute. reflexivity.
  - discriminate.
  - vm_compute. reflexivity.
Qed.

(** ** SOURCE_READY *)

Section SourceReady.
Context `{Platform}.

Lemma no_acquisition_after_locating (w w1 : world) (base p : string) :
  get_data_dir_path None w = (Ret base, w1) ->
  exists evs, calls (log (EvReadCsv p) w1) = calls w ++ evs /\
              Forall (fun e => is_acquisition e = false) evs.
Proof.
  intros Hg. destruct (get_data_dir_path_calls w w1 base Hg) as [Hc|Hc]; simpl; rewrite Hc.
  - exists [EvReadCsv p]. split; [reflexivity|]. by repeat constructor.
  - exists [EvMakedirs base; EvReadCsv p]. split; [by rewrite <- app_assoc|].
    by repeat constructor.
Qed.

(** C7. With the source file present, a call parses it and returns: one frame
    is enough, nothing is fetched, extracted or deleted. And once any call has
    returned a table, the next call does nothing but read the source file
    again and returns the same table. *)
Theorem source_ready_is_terminal :
  (forall (d : nat) (w w1 : world) (base data : string),
     get_data_dir_path None w = (Ret base, w1) ->
     fs w !! csv_path_of base = Some (File data) ->
     fetch_ml20m_ratings (S d) None w =
       (table_of data, log (EvReadCsv (csv_path_of base)) w1) /\
     fs (log (EvReadCsv (csv_path_of base)) w1) = fs w1 /\
     exists evs, calls (log (EvReadCsv (csv_path_of base)) w1) = calls w ++ evs /\
                 Forall (fun e => is_acquisition e = false) evs) /\
  (forall (d0 d : nat) (w0 w : world) (df : DataFrame),
     fetch_ml20m_ratings d0 None w0 = (Ret df, w) ->
     fetch_ml20m_ratings (S d) None w =
       (Ret df, log (EvReadCsv (csv_path_of (data_dir_of (environ w0)))) w)).
Proof.
  split.
  - intros d w w1 base data Hg Hc.
    split; [|split; [reflexivity | by apply (no_acquisition_after_locating w w1 base)]].
    assert (Hc1 : fs w1 !! csv_path_of base = Some (File data))
      by (by rewrite (get_data_dir_path_csv w w1 base Hg)).
    rewrite (fetch_source_ready d w w1 base Hg) by eauto.
    by apply ml20m_ratings_csv_to_df_file.
  - intros d0 d w0 w df Hfirst.
    apply fetch_default_returns in Hfirst. cbv zeta in Hfirst.
    destruct Hfirst as (Henv & Hdir & (data & Hdata & Htab) & _).
    set (base := data_dir_of (environ w0)) in *.
    assert (Hg : get_data_dir_path None w = (Ret base, w)).
    { apply get_data_dir_path_stable; [|exact Hdir]. unfold base. by rewrite Henv. }
    rewrite (fetch_source_ready d w w base Hg) by eauto.
    rewrite (ml20m_ratings_csv_to_df_file _ data w Hdata). by rewrite Htab.
Qed.

End SourceReady.

Lemma source_ready_is_terminal_witness :
  @fetch_ml20m_ratings Demo.good 1 None Demo.w_source =
    (@table_of Demo.good Demo.ratings_csv, log (EvReadCsv Demo.csv_path) Demo.w_source) /\
  @fetch_ml20m_ratings Demo.good 1 None
      (snd (@fetch_ml20m_ratings Demo.good 3 None Demo.w_fresh)) =
    (Ret Demo.ratings_table,
     log (EvReadCsv Demo.csv_path) (snd (@fetch_ml20m_ratings Demo.good 3 None Demo.w_fresh))).
Proof.
  split.
  - apply (proj1 (@source_ready_is_terminal Demo.good) 0%nat Demo.w_source Demo.w_source
             Demo.base Demo.ratings_csv).
    + vm_compute. reflexivity.
    + vm_compute. reflexivity.
  - apply (proj2 (@source_ready_is_terminal Demo.good) 3%nat 0%nat Demo.w_fresh).
    vm_compute. reflexivity.
Defined.

(** ** EMPTY: the download *)

Section Download.
Context `{Platform}.

(** C2, as the code has it. From the empty cache state, a fetch that fails at
    connection time leaves the filesystem as it was before the download branch
    ran, with no archive file; a fetch that fails while the body is streamed
    leaves the bytes received so far in the archive file. *)
Theorem failed_fetch_archive_state (d : nat) (w w1 : world) (base : string) :
  get_data_dir_path None w = (Ret base, w1) ->
  fs w !! csv_path_of base = None ->
  fs w !! zip_path_of base = None ->
  (urlopen dataset_url = Unreachable ->
     fetch_ml20m_ratings (S d) None w = (Raise URLError, requesting w1) /\
     fs (requesting w1) = fs w1 /\
     fs (requesting w1) !! zip_path_of base = None) /\
  (forall data,
     urlopen dataset_url = Body data false ->
     fetch_ml20m_ratings (S d) None w = (Raise IncompleteRead, downloaded base data w1) /\
     fs (downloaded base data w1) !! zip_path_of base = Some (File data)).
Proof.
  intros Hg Hc Hz.
  assert (Hc1 : fs w1 !! csv_path_of base = None)
    by (by rewrite (get_data_dir_path_csv w w1 base Hg)).
  assert (Hz1 : fs w1 !! zip_path_of base = None)
    by (by rewrite (get_data_dir_path_zip w w1 base Hg)).
  split.
  - intros Hu. rewrite (fetch_empty d w w1 base Hg Hc1 Hz1), Hu. auto.
  - intros data Hu. rewrite (fetch_empty d w w1 base Hg Hc1 Hz1), Hu.
    split; [reflexivity | apply downloaded_zip].
Qed.

End Download.

Lemma failed_fetch_archive_state_witness :
  (@fetch_ml20m_ratings Demo.offline 3 None Demo.w_empty =
     (Raise URLError, requesting Demo.w_empty) /\
   fs (requesting Demo.w_empty) = fs Demo.w_empty /\
   fs (requesting Demo.w_empty) !! @zip_path_of Demo.base = None) /\
  (@fetch_ml20m_ratings Demo.flaky 3 None Demo.w_empty =
     (Raise IncompleteRead, downloaded Demo.base "PK" Demo.w_empty) /\
   fs (downloaded Demo.base "PK" Demo.w_empty) !! @zip_path_of Demo.base =
     Some (File "PK")).
Proof.
  split.
  - apply (@failed_fetch_archive_state Demo.offline 2 Demo.w_empty Demo.w_empty Demo.base);
      vm_compute; reflexivity.
  - apply (@failed_fetch_archive_state Demo.flaky 2 Demo.w_empty Demo.w_empty Demo.base);
      vm_compute; reflexivity.
Defined.

(** C2 as stated fails: when the stream breaks off, a partial archive file is
    left where there was none. *)
Lemma failed_stream_leaves_partial_archive :
  fs Demo.w_empty !! Demo.zip_path = None /\
  fst (@fetch_ml20m_ratings Demo.flaky 3 None Demo.w_empty) = Raise IncompleteRead /\
  fs (snd (@fetch_ml20m_ratings Demo.flaky 3 None Demo.w_empty)) !! Demo.zip_path =
    Some (File "PK") /\
  fs (snd (@fetch_ml20m_ratings Demo.flaky 3 None Demo.w_empty)) <> fs Demo.w_empty.
Proof.
  split; [|split; [|split]]; try (vm_compute; reflexivity).
  intros E. apply (f_equal (fun m => m !! Demo.zip_path)) in E.
  vm_compute in E. discriminate E.
Qed.

(** ** ARCHIVE_READY: extraction, removal, re-entry *)

Section ArchiveReady.
Context `{Platform}.

Lemma located_unzipped (w w1 : world) (base : string) (ms : list (string * string)) :
  get_data_dir_path None w = (Ret base, w1) ->
  get_data_dir_path None (unzipped base ms w1) = (Ret base, unzipped base ms w1).
Proof.
  intros Hg. destruct (get_data_dir_path_Ret w w1 base Hg) as (Hb & Henv & Hdir & _).
  apply get_data_dir_path_stable.
  - change (environ (unzipped base ms w1)) with (environ w1). by rewrite Henv.
  - rewrite unzipped_lookup by (intros E; by apply (zip_path_ne_base base)).
    by apply write_members_is_Some.
Qed.

Lemma located_downloaded (w w1 : world) (base data : string) :
  get_data_dir_path None w = (Ret base, w1) ->
  get_data_dir_path None (downloaded base data w1) = (Ret base, downloaded base data w1).
Proof.
  intros Hg. destruct (get_data_dir_path_Ret w w1 base Hg) as (Hb & Henv & Hdir & _).
  apply get_data_dir_path_stable.
  - change (environ (downloaded base data w1)) with (environ w1). by rewrite Henv.
  - rewrite downloaded_lookup by (intros E; by apply (zip_path_ne_base base)).
    exact Hdir.
Qed.

Lemma unzipped_csv (base : string) (ms : list (string * string)) (w1 : world) (n : node) :
  write_members base ms ∅ !! csv_path_of base = Some n ->
  fs (unzipped base ms w1) !! csv_path_of base = Some n.
Proof.
  intros Hm. rewrite unzipped_lookup by apply csv_path_ne_zip_path.
  by rewrite write_members_lookup, Hm.
Qed.

Lemma unzipped_calls (base : string) (ms : list (string * string)) (w1 : world) :
  calls (unzipped base ms w1) =
    calls w1 ++ [EvPrint "Unzipping data...";
                 EvExtractAll (zip_path_of base) base;
                 EvRemove (zip_path_of base)].
Proof. simpl. by rewrite <- !app_assoc. Qed.

(** An archive that delivers the source file, then the loader. *)
Lemma fetch_after_unzip (d : nat) (w w1 : world) (base z c : string)
  (ms : list (string * string)) :
  get_data_dir_path None w = (Ret base, w1) ->
  fs w1 !! csv_path_of base = None ->
  fs w1 !! zip_path_of base = Some (File z) ->
  zip_read z = Members ms true ->
  write_members base ms ∅ !! csv_path_of base = Some (File c) ->
  fetch_ml20m_ratings (S (S d)) None w =
    (table_of c, log (EvReadCsv (csv_path_of base)) (unzipped base ms w1)).
Proof.
  intros Hg Hc Hz Hr Hm.
  rewrite (fetch_archive_ready (S d) w w1 base (File z) Hg Hc Hz), Hr.
  pose proof (unzipped_csv base ms w1 (File c) Hm) as Hc2.
  rewrite (fetch_source_ready d _ _ base (located_unzipped w w1 base ms Hg)) by eauto.
  by apply ml20m_ratings_csv_to_df_file.
Qed.

(** C6, as the code has it. In the ARCHIVE_READY state the archive is
    extracted into the base data directory [data_dir_path] (the member names
    carry the dataset directory), then the archive file is deleted, then the
    function calls itself afresh with no argument. *)
Theorem archive_ready_step (d : nat) (w w1 : world) (base z : string)
  (ms : list (string * string)) :
  get_data_dir_path None w = (Ret base, w1) ->
  fs w !! csv_path_of base = None ->
  fs w !! zip_path_of base = Some (File z) ->
  zip_read z = Members ms true ->
  fetch_ml20m_ratings (S d) None w = fetch_ml20m_ratings d None (unzipped base ms w1) /\
  fs (unzipped base ms w1) = delete (zip_path_of base) (write_members base ms (fs w1)) /\
  calls (unzipped base ms w1) =
    calls w1 ++ [EvPrint "Unzipping data...";
                 EvExtractAll (zip_path_of base) base;
                 EvRemove (zip_path_of base)].
Proof.
  intros Hg Hc Hz Hr.
  rewrite <- (get_data_dir_path_csv w w1 base Hg) in Hc.
  rewrite <- (get_data_dir_path_zip w w1 base Hg) in Hz.
  rewrite (fetch_archive_ready d w w1 base (File z) Hg Hc Hz), Hr.
  split; [reflexivity|]. split; [reflexivity | apply unzipped_calls].
Qed.

(** C5. From the archive-only state, whenever the call returns a table the
    archive file is gone and the source file is there; and when the archive
    extracts and delivers the source file, two frames are enough for the call
    to complete, the removal following the extraction at once. *)
Theorem archive_only_resolution (w w1 : world) (base z : string) :
  get_data_dir_path None w = (Ret base, w1) ->
  fs w !! csv_path_of base = None ->
  fs w !! zip_path_of base = Some (File z) ->
  (forall d df w',
     fetch_ml20m_ratings d None w = (Ret df, w') ->
     fs w' !! zip_path_of base = None /\ is_Some (fs w' !! csv_path_of base)) /\
  (forall ms c d,
     zip_read z = Members ms true ->
     write_members base ms ∅ !! csv_path_of base = Some (File c) ->
     exists w',
       fetch_ml20m_ratings (S (S d)) None w = (table_of c, w') /\
       fs w' !! zip_path_of base = None /\
       fs w' !! csv_path_of base = Some (File c) /\
       calls w' = calls w1 ++ [EvPrint "Unzipping data...";
                               EvExtractAll (zip_path_of base) base;
                               EvRemove (zip_path_of base);
                               EvReadCsv (csv_path_of base)]).
Proof.
  intros Hg Hc Hz. split.
  - intros d df w' Hret. apply fetch_default_returns in Hret. cbv zeta in Hret.
    destruct (get_data_dir_path_Ret w w1 base Hg) as (Hb & _).
    rewrite <- Hb in Hret.
    destruct Hret as (_ & _ & (data & Hdata & _) & Hgone).
    split; [apply Hgone; by right | rewrite Hdata; eauto].
  - intros ms c d Hr Hm.
    exists (log (EvReadCsv (csv_path_of base)) (unzipped base ms w1)).
    rewrite <- (get_data_dir_path_csv w w1 base Hg) in Hc.
    rewrite <- (get_data_dir_path_zip w w1 base Hg) in Hz.
    split; [by apply (fetch_after_unzip d w w1 base z c ms)|].
    split; [apply unzipped_zip_gone|].
    split; [by apply unzipped_csv|].
    change (calls (unzipped base ms w1) ++ [EvReadCsv (csv_path_of base)] =
            calls w1 ++ [EvPrint "Unzipping data...";
                         EvExtractAll (zip_path_of base) base;
                         EvRemove (zip_path_of base);
                         EvReadCsv (csv_path_of base)]).
    rewrite unzipped_calls. by rewrite <- app_assoc.
Qed.

End ArchiveReady.

Lemma archive_ready_step_witness :
  @fetch_ml20m_ratings Demo.good 2 None Demo.w_archive =
    @fetch_ml20m_ratings Demo.good 1 None
      (unzipped Demo.base Demo.zip_members Demo.w_archive) /\
  fs (unzipped Demo.base Demo.zip_members Demo.w_archive) =
    delete (@zip_path_of Demo.base)
      (write_members Demo.base Demo.zip_members (fs Demo.w_archive)) /\
  calls (unzipped Demo.base Demo.zip_members Demo.w_archive) =
    calls Demo.w_archive ++ [EvPrint "Unzipping data...";
                             EvExtractAll (@zip_path_of Demo.base) Demo.base;
                             EvRemove (@zip_path_of Demo.base)].
Proof.
  apply (@archive_ready_step Demo.good 1 Demo.w_archive Demo.w_archive Demo.base
           Demo.zip_bytes Demo.zip_members); vm_compute; reflexivity.
Defined.

(** C6 as stated fails: extracting into [directory_path] would put the source
    file one directory too deep, and the re-entry would not find it; the code
    extracts into the base directory and the re-entry returns the table. *)
Lemma archive_not_extracted_into_directory_path :
  @fetch_ml20m_ratings Demo.good 2 None Demo.w_archive <>
    @fetch_ml20m_ratings Demo.good 1 None
      (unzipped_into_directory_path Demo.base Demo.zip_members Demo.w_archive) /\
  fst (@fetch_ml20m_ratings Demo.good 2 None Demo.w_archive) = Ret Demo.ratings_table /\
  calls (snd (@fetch_ml20m_ratings Demo.good 2 None Demo.w_archive)) =
    [EvPrint "Unzipping data...";
     EvExtractAll Demo.zip_path Demo.base;
     EvRemove Demo.zip_path;
     EvReadCsv Demo.csv_path] /\
  os_path_join Demo.base dirname <> Demo.base /\
  fs (snd (@fetch_ml20m_ratings Demo.good 2 None Demo.w_archive))
    !! "/home/user/funk_svd_data/ml-20m/ml-20m/ratings.csv" = None /\
  fs (unzipped_into_directory_path Demo.base Demo.zip_members Demo.w_archive)
    !! "/home/user/funk_svd_data/ml-20m/ml-20m/ratings.csv" = Some (File Demo.ratings_csv) /\
  fs (unzipped_into_directory_path Demo.base Demo.zip_members Demo.w_archive)
    !! Demo.csv_path = None.
Proof.
  split; [|split; [|split; [|split; [|split; [|split]]]]]; try (vm_compute; reflexivity).
  - intros E. apply (f_equal fst) in E. vm_compute in E. discriminate E.
  - intros E. vm_compute in E. discriminate E.
Qed.

Lemma archive_only_resolution_witness :
  exists w',
    @fetch_ml20m_ratings Demo.good 2 None Demo.w_archive =
      (@table_of Demo.good Demo.ratings_csv, w') /\
    fs w' !! @zip_path_of Demo.base = None /\
    fs w' !! @csv_path_of Demo.base = Some (File Demo.ratings_csv) /\
    calls w' = calls Demo.w_archive ++
      [EvPrint "Unzipping data...";
       EvExtractAll (@zip_path_of Demo.base) Demo.base;
       EvRemove (@zip_path_of Demo.base);
       EvReadCsv (@csv_path_of Demo.base)].
Proof.
  apply (proj2 (@archive_only_resolution Demo.good Demo.w_archive Demo.w_archive
                  Demo.base Demo.zip_bytes
                  ltac:(vm_compute; reflexivity) ltac:(vm_compute; reflexivity)
                  ltac:(vm_compute; reflexivity))
           Demo.zip_members Demo.ratings_csv 0%nat);
    vm_compute; reflexivity.
Defined.

(** ** When extraction fails *)

Section ExtractionFailure.
Context `{Platform}.

(** In ARCHIVE_READY the call starts by announcing and attempting extraction. *)
Lemma fetch_archive_ready_calls (d : nat) (w : world) (base : string) (nd : node) :
  get_data_dir_path None w = (Ret base, w) ->
  fs w !! csv_path_of base = None ->
  fs w !! zip_path_of base = Some nd ->
  exists evs,
    calls (snd (fetch_ml20m_ratings (S d) None w)) =
      calls w ++ EvPrint "Unzipping data..." :: EvExtractAll (zip_path_of base) base :: evs.
Proof.
  intros Hg Hc Hz. rewrite (fetch_archive_ready d w w base nd Hg Hc Hz).
  destruct nd as [z|]; [destruct (zip_read z) as [|ms [|]]|];
    try (exists []; simpl; by rewrite <- app_assoc).
  destruct (fetch_extends d None (unzipped base ms w)) as [evs Hevs].
  exists (EvRemove (zip_path_of base) :: evs).
  rewrite Hevs, unzipped_calls. by rewrite <- app_assoc.
Qed.

(** C8, as the code has it. When extraction raises, the archive file is still
    there afterwards and no removal was attempted; if the file was not a
    readable archive the filesystem is untouched; and a further call attempts
    the extraction of the same path again provided the source file is still
    absent. *)
Theorem failed_extraction_keeps_archive (d : nat) (w w1 : world) (base z : string) :
  get_data_dir_path None w = (Ret base, w1) ->
  fs w !! csv_path_of base = None ->
  fs w !! zip_path_of base = Some (File z) ->
  (forall ms, zip_read z <> Members ms true) ->
  fst (fetch_ml20m_ratings (S d) None w) = Raise BadZipFile /\
  is_Some (fs (snd (fetch_ml20m_ratings (S d) None w)) !! zip_path_of base) /\
  calls (snd (fetch_ml20m_ratings (S d) None w)) =
    calls w1 ++ [EvPrint "Unzipping data..."; EvExtractAll (zip_path_of base) base] /\
  (zip_read z = NotAZip -> fs (snd (fetch_ml20m_ratings (S d) None w)) = fs w1) /\
  (fs (snd (fetch_ml20m_ratings (S d) None w)) !! csv_path_of base = None ->
   forall d2, exists evs,
     calls (snd (fetch_ml20m_ratings (S d2) None (snd (fetch_ml20m_ratings (S d) None w)))) =
       calls (snd (fetch_ml20m_ratings (S d) None w)) ++
         EvPrint "Unzipping data..." :: EvExtractAll (zip_path_of base) base :: evs).
Proof.
  intros Hg Hc Hz Hbad.
  destruct (get_data_dir_path_Ret w w1 base Hg) as (Hb & Henv & Hdir & _).
  rewrite <- (get_data_dir_path_csv w w1 base Hg) in Hc.
  rewrite <- (get_data_dir_path_zip w w1 base Hg) in Hz.
  rewrite (fetch_archive_ready d w w1 base (File z) Hg Hc Hz).
  assert (Hretry : forall w2, environ w2 = environ w1 ->
            is_Some (fs w2 !! base) -> is_Some (fs w2 !! zip_path_of base) ->
            fs w2 !! csv_path_of base = None ->
            forall d2, exists evs,
              calls (snd (fetch_ml20m_ratings (S d2) None w2)) =
                calls w2 ++ EvPrint "Unzipping data..."
                         :: EvExtractAll (zip_path_of base) base :: evs).
  { intros w2 He2 Hd2 [nd Hz2] Hc2 d2.
    apply (fetch_archive_ready_calls d2 w2 base nd); [|exact Hc2|exact Hz2].
    apply get_data_dir_path_stable; [by rewrite He2, Henv | exact Hd2]. }
  destruct (zip_read z) as [|ms [|]] eqn:Hr; [| by destruct (Hbad ms) |]; simpl.
  - rewrite Hz.
    split; [reflexivity|]. split; [eauto|].
    split; [by rewrite <- app_assoc|]. split; [reflexivity|].
    intros Hc2 d2. apply Hretry; simpl; [reflexivity | exact Hdir | rewrite Hz; eauto | exact Hc2].
  - assert (Hz2 : is_Some (write_members base ms (fs w1) !! zip_path_of base))
      by (apply write_members_is_Some; rewrite Hz; eauto).
    split; [reflexivity|]. split; [exact Hz2|].
    split; [by rewrite <- app_assoc|]. split; [discriminate|].
    intros Hc2 d2. apply Hretry; simpl;
      [reflexivity | by apply write_members_is_Some | exact Hz2 | exact Hc2].
Qed.

End ExtractionFailure.

Lemma failed_extraction_keeps_archive_witness :
  fst (@fetch_ml20m_ratings Demo.not_a_zip 2 None Demo.w_archive) = Raise BadZipFile /\
  fs (snd (@fetch_ml20m_ratings Demo.not_a_zip 2 None Demo.w_archive)) = fs Demo.w_archive /\
  fst (@fetch_ml20m_ratings Demo.damaged 2 None Demo.w_archive) = Raise BadZipFile /\
  is_Some (fs (snd (@fetch_ml20m_ratings Demo.damaged 2 None Demo.w_archive))
             !! @zip_path_of Demo.base).
Proof.
  assert (Hbad1 : forall ms, @zip_read Demo.not_a_zip Demo.zip_bytes <> Members ms true)
    by (intros ms E; vm_compute in E; discriminate E).
  assert (Hbad2 : forall ms, @zip_read Demo.damaged Demo.zip_bytes <> Members ms true)
    by (intros ms E; vm_compute in E; discriminate E).
  destruct (@failed_extraction_keeps_archive Demo.not_a_zip 1 Demo.w_archive Demo.w_archive
              Demo.base Demo.zip_bytes ltac:(vm_compute; reflexivity)
              ltac:(vm_compute; reflexivity) ltac:(vm_compute; reflexivity) Hbad1)
    as (R1 & _ & _ & F1 & _).
  destruct (@failed_extraction_keeps_archive Demo.damaged 1 Demo.w_archive Demo.w_archive
              Demo.base Demo.zip_bytes ltac:(vm_compute; reflexivity)
              ltac:(vm_compute; reflexivity) ltac:(vm_compute; reflexivity) Hbad2)
    as (R2 & S2 & _).
  split; [exact R1|]. split; [apply F1; vm_compute; reflexivity|].
  split; [exact R2 | exact S2].
Defined.

(** C8 as stated fails in its last part: an extraction that raises after it
    has written the source file leaves the archive in place, and the retried
    call loads the source file without extracting anything. *)
Lemma retry_after_partial_extraction_loads :
  fst (@fetch_ml20m_ratings Demo.damaged_late 2 None Demo.w_archive) = Raise BadZipFile /\
  fs (snd (@fetch_ml20m_ratings Demo.damaged_late 2 None Demo.w_archive)) !! Demo.zip_path =
    Some (File Demo.zip_bytes) /\
  @fetch_ml20m_ratings Demo.damaged_late 2 None
      (snd (@fetch_ml20m_ratings Demo.damaged_late 2 None Demo.w_archive)) =
    (Ret Demo.ratings_table,
     log (EvReadCsv Demo.csv_path)
       (snd (@fetch_ml20m_ratings Demo.damaged_late 2 None Demo.w_archive))) /\
  calls (snd (@fetch_ml20m_ratings Demo.damaged_late 2 None
                (snd (@fetch_ml20m_ratings Demo.damaged_late 2 None Demo.w_archive)))) =
    [EvPrint "Unzipping data..."; EvExtractAll Demo.zip_path Demo.base;
     EvReadCsv Demo.csv_path].
Proof.
  split; [|split; [|split]]; vm_compute; reflexivity.
Qed.

(** ** State independence *)

Section StateIndependence.
Context `{Platform}.


End StateIndependence.



(** ** Runs on the concrete platform *)

Example ratings_csv_table : @table_of Demo.good Demo.ratings_csv = Ret Demo.ratings_table.
Proof. vm_compute. reflexivity. Qed.

Example cold_start_run :
  fst (@fetch_ml20m_ratings Demo.good 3 None Demo.w_fresh) = Ret Demo.ratings_table /\
  calls (snd (@fetch_ml20m_ratings Demo.good 3 None Demo.w_fresh)) =
    [EvMakedirs Demo.base; EvPrint "Downloading data...";
     EvUrlopen dataset_url; EvOpenWb Demo.zip_path;
     EvPrint "Unzipping data..."; EvExtractAll Demo.zip_path Demo.base;
     EvRemove Demo.zip_path; EvReadCsv Demo.csv_path].
Proof. split; vm_compute; reflexivity. Qed.

Example cold_start_out_of_frames :
  fst (@fetch_ml20m_ratings Demo.good 2 None Demo.w_fresh) = Raise RecursionError.
Proof. vm_compute. reflexivity. Qed.

Example offline_run :
  fst (@fetch_ml20m_ratings Demo.offline 3 None Demo.w_fresh) = Raise URLError.
Proof. vm_compute. reflexivity. Qed.

Example posix_join :
  os_path_join "/data/" "ml-20m" = "/data/ml-20m" /\
  os_path_join "/data" "ml-20m" = "/data/ml-20m" /\
  os_path_join "" "ml-20m" = "ml-20m" /\
  os_path_join "/data" "/abs" = "/abs".
Proof. repeat split. Qed.

(** ** Further properties: locating the data directory *)

Section DataDir.
Context `{Platform}.

Lemma get_data_dir_path_unfold (a : option string) (w : world) :
  get_data_dir_path a w =
    let p := resolved_dir a w in
    match fs w !! p with
    | Some _ => (Ret p, w)
    | None =>
        if bool_decide (p = "") then (Raise (FileNotFoundError p), log (EvMakedirs p) w)
        else (Ret p, log (EvMakedirs p) (set_fs <[p := Dir]> w))
    end.
Proof.
  destruct a as [p|]; [|apply get_data_dir_path_None].
  unfold get_data_dir_path, bind, os_path_exists, os_makedirs, ret. simpl.
  destruct (fs w !! p) as [n|] eqn:E; simpl.
  - reflexivity.
  - by destruct (bool_decide _).
Qed.

(** X1. [get_data_dir_path] settles on the explicit path when one is given,
    and otherwise on the expansion of [FUNK_SVD_DATA] or of the default. When
    that path exists, whatever it is, the call returns it and does nothing
    else. When it is absent, the call makes exactly one [makedirs] call, on
    that path, and if it returns, it returns that path, which is then a
    directory. In no case does an entry that was there disappear or change,
    and the environment is left alone. *)
Theorem get_data_dir_path_creates_once (a : option string) (w : world) :
  (is_Some (fs w !! resolved_dir a w) ->
     get_data_dir_path a w = (Ret (resolved_dir a w), w)) /\
  (fs w !! resolved_dir a w = None ->
     calls (snd (get_data_dir_path a w)) = calls w ++ [EvMakedirs (resolved_dir a w)] /\
     forall p, fst (get_data_dir_path a w) = Ret p ->
       p = resolved_dir a w /\
       fs (snd (get_data_dir_path a w)) !! resolved_dir a w = Some Dir) /\
  (forall p n, fs w !! p = Some n -> fs (snd (get_data_dir_path a w)) !! p = Some n) /\
  environ (snd (get_data_dir_path a w)) = environ w.
Proof.
  rewrite get_data_dir_path_unfold. cbv zeta.
  set (p := resolved_dir a w) in *.
  destruct (fs w !! p) as [n|] eqn:E.
  - repeat split; try done.
  - split; [by intros [? ?]|].
    destruct (bool_decide (p = "")) eqn:Hp; simpl.
    + repeat split; try done.
    + rewrite lookup_insert_eq. repeat split; try done.
      * congruence.
      * intros q m Hq. rewrite lookup_insert_ne; [exact Hq|]. intros <-. congruence.
Qed.

(** X2. Locating the directory a second time returns the same path and
    changes nothing: no entry is touched and no call is made. *)
Theorem get_data_dir_path_idempotent (a : option string) (w w1 : world) (p : string) :
  get_data_dir_path a w = (Ret p, w1) ->
  get_data_dir_path a w1 = (Ret p, w1).
Proof.
  rewrite !get_data_dir_path_unfold. cbv zeta.
  assert (Hres : forall w2, environ w2 = environ w -> resolved_dir a w2 = resolved_dir a w)
    by (intros w2 He; destruct a; simpl; [reflexivity | by rewrite He]).
  destruct (fs w !! resolved_dir a w) as [n|] eqn:E.
  - intros [= <- <-]. by rewrite E.
  - destruct (bool_decide _); [discriminate|]. intros [= <- <-].
    rewrite Hres by reflexivity. simpl. by rewrite lookup_insert_eq.
Qed.

End DataDir.

Lemma get_data_dir_path_creates_once_witness :
  @get_data_dir_path Demo.good None Demo.w_base_is_file =
    (Ret Demo.base, Demo.w_base_is_file) /\
  calls (snd (@get_data_dir_path Demo.good None Demo.w_fresh)) = [EvMakedirs Demo.base] /\
  fs (snd (@get_data_dir_path Demo.good None Demo.w_fresh)) !! Demo.base = Some Dir.
Proof.
  destruct (@get_data_dir_path_creates_once Demo.good None Demo.w_base_is_file)
    as (Hex & _).
  destruct (@get_data_dir_path_creates_once Demo.good None Demo.w_fresh)
    as (_ & Hnew & _).
  split; [apply Hex; vm_compute; eauto|].
  destruct Hnew as [Hcalls Hret]; [vm_compute; reflexivity|].
  split; [exact Hcalls|].
  apply (Hret Demo.base). vm_compute. reflexivity.
Defined.

Lemma get_data_dir_path_idempotent_witness :
  @get_data_dir_path Demo.good None
      (snd (@get_data_dir_path Demo.good None Demo.w_fresh)) =
    (Ret Demo.base, snd (@get_data_dir_path Demo.good None Demo.w_fresh)).
Proof.
  apply (@get_data_dir_path_idempotent Demo.good None Demo.w_fresh).
  vm_compute. reflexivity.
Defined.

(** ** Further properties: the cache layout *)

(** X3. For every base directory the source file lies directly inside the
    dataset directory, the archive is the dataset directory with [.zip]
    appended, and the base directory, the dataset directory, the archive and
    the source file are four different paths. *)
Theorem cache_layout (base : string) :
  csv_path_of base = os_path_join base dirname +:+ "/" +:+ filename /\
  zip_path_of base = os_path_join base dirname +:+ ".zip" /\
  csv_path_of base <> zip_path_of base /\
  csv_path_of base <> base /\
  zip_path_of base <> base /\
  os_path_join base dirname <> base /\
  csv_path_of base <> os_path_join base dirname /\
  zip_path_of base <> os_path_join base dirname.
Proof.
  assert (HD : exists s1, (s1 = "ml-20m" \/ s1 = "/ml-20m") /\
                 os_path_join base dirname = base +:+ s1).
  { unfold os_path_join, dirname. simpl startswith_sep. cbv iota.
    destruct (bool_decide (base = "") || endswith_sep base); eauto. }
  destruct HD as (s1 & Hs1 & HD).
  destruct (cache_paths_shape base) as (s2 & Hs2 & Hc & Hz).
  assert (Hcd : csv_path_of base = os_path_join base dirname +:+ "/" +:+ filename).
  { unfold csv_path_of at 1. rewrite HD. unfold os_path_join at 1, filename.
    simpl startswith_sep. cbv iota.
    rewrite endswith_sep_app by (destruct Hs1 as [-> | ->]; discriminate).
    assert (endswith_sep s1 = false) as -> by (destruct Hs1 as [-> | ->]; reflexivity).
    rewrite bool_decide_eq_false_2; [reflexivity|].
    intros E. apply string_app_eq_nil in E as [_ E].
    destruct Hs1 as [-> | ->]; discriminate E. }
  split; [exact Hcd|]. split; [reflexivity|].
  split; [apply csv_path_ne_zip_path|].
  split; [apply csv_path_ne_base|].
  split; [apply zip_path_ne_base|].
  split; [|split].
  - rewrite HD. intros E. apply string_app_fixed in E.
    destruct Hs1 as [-> | ->]; discriminate E.
  - rewrite Hcd. intros E. apply string_app_fixed in E. discriminate E.
  - unfold zip_path_of. intros E. apply string_app_fixed in E. discriminate E.
Qed.

(** ** Further properties: what every call guarantees *)

Section Postconditions.
Context `{Platform}.

Lemma table_of_Ret_shape (data : string) (df : DataFrame) :
  table_of data = Ret df ->
  StronglySorted Z.le (timestamps df) /\ map fst df = seq 0 (length df).
Proof.
  unfold table_of. destruct (parse_csv data) as [df0|e]; [|discriminate].
  intros [= <-]. split.
  - rewrite reset_index_timestamps. apply sort_values_sorted.
  - by rewrite reset_index_labels, reset_index_length.
Qed.

(** X4. Whatever the mode, the cache state and the steps taken, a table
    returned by [fetch_ml20m_ratings] is sorted ascending by timestamp and
    indexed 0, 1, 2, ... *)
Theorem fetched_table_sorted_contiguous (d : nat) (a : option string) (w w' : world)
  (df : DataFrame) :
  fetch_ml20m_ratings d a w = (Ret df, w') ->
  StronglySorted Z.le (timestamps df) /\ map fst df = seq 0 (length df).
Proof.
  destruct a as [p|].
  - destruct d as [|d]; [discriminate|].
    destruct (fs w !! p) as [n|] eqn:Hp.
    + rewrite fetch_override_present by eauto.
      intros (data & _ & Ht & _)%ml20m_ratings_csv_to_df_Ret.
      by apply (table_of_Ret_shape data).
    + rewrite fetch_override_absent by exact Hp. discriminate.
  - intros Hret. apply fetch_default_returns in Hret.
    destruct Hret as (_ & _ & (data & _ & Ht) & _).
    by apply (table_of_Ret_shape data).
Qed.

(** X5. Override mode is read-only: with an explicit path the call never
    changes the filesystem or the environment, creates no directory, and
    makes at most one outside call, the read of that path. *)
Theorem override_mode_read_only (d : nat) (p : string) (w : world) :
  fs (snd (fetch_ml20m_ratings d (Some p) w)) = fs w /\
  environ (snd (fetch_ml20m_ratings d (Some p) w)) = environ w /\
  (calls (snd (fetch_ml20m_ratings d (Some p) w)) = calls w \/
   calls (snd (fetch_ml20m_ratings d (Some p) w)) = calls w ++ [EvReadCsv p]).
Proof.
  destruct d as [|d]; [simpl; auto|].
  destruct (fs w !! p) as [n|] eqn:Hp.
  - rewrite fetch_override_present by eauto.
    rewrite ml20m_ratings_csv_to_df_world. simpl. auto.
  - rewrite fetch_override_absent by exact Hp. simpl. auto.
Qed.

(** X6. In default mode, whenever a call returns a table, then afterwards
    the base directory and the source file exist, the environment is as
    before, and the table is exactly what the source file now on disk loads
    as. *)
Theorem returned_table_is_cached_source (d : nat) (w w' : world) (df : DataFrame) :
  fetch_ml20m_ratings d None w = (Ret df, w') ->
  environ w' = environ w /\
  is_Some (fs w' !! data_dir_of (environ w)) /\
  exists data,
    fs w' !! csv_path_of (data_dir_of (environ w)) = Some (File data) /\
    table_of data = Ret df.
Proof.
  intros Hret. apply fetch_default_returns in Hret.
  destruct Hret as (He & Hd & Hdata & _). auto.
Qed.

End Postconditions.

Lemma fetched_table_sorted_contiguous_witness :
  StronglySorted Z.le (timestamps Demo.ratings_table) /\
  map fst Demo.ratings_table = seq 0 (length Demo.ratings_table).
Proof.
  apply (@fetched_table_sorted_contiguous Demo.good 3 None Demo.w_fresh
           (snd (@fetch_ml20m_ratings Demo.good 3 None Demo.w_fresh)) Demo.ratings_table).
  vm_compute. reflexivity.
Defined.

Lemma returned_table_is_cached_source_witness :
  exists data,
    fs (snd (@fetch_ml20m_ratings Demo.good 3 None Demo.w_fresh))
      !! @csv_path_of (@data_dir_of Demo.good (environ Demo.w_fresh)) = Some (File data) /\
    @table_of Demo.good data = Ret Demo.ratings_table.
Proof.
  apply (@returned_table_is_cached_source Demo.good 3 Demo.w_fresh
           (snd (@fetch_ml20m_ratings Demo.good 3 None Demo.w_fresh)) Demo.ratings_table).
  vm_compute. reflexivity.
Defined.

(** ** Further properties: runs from the empty cache *)

Section EmptyCache.
Context `{Platform}.

Lemma downloaded_calls (base data : string) (w1 : world) :
  calls (downloaded base data w1) =
    calls w1 ++ [EvPrint "Downloading data..."; EvUrlopen dataset_url;
                 EvOpenWb (zip_path_of base)].
Proof. simpl. by rewrite <- !app_assoc. Qed.

(** X7. From the empty cache, when the data directory is a directory and
    evaluating [urllib.request.urlopen] delivers an archive (which takes
    [urllib.request] to be bound) that extracts and holds the source file,
    three frames are enough: the call returns the table of that file after
    exactly one request, one file creation, one extraction, one removal and
    one read, in this order, and leaves the source file in place and no
    archive. *)
Theorem empty_cache_resolution (d : nat) (w w1 : world) (base z c : string)
  (ms : list (string * string)) :
  get_data_dir_path None w = (Ret base, w1) ->
  fs w1 !! base = Some Dir ->
  fs w !! csv_path_of base = None ->
  fs w !! zip_path_of base = None ->
  urlopen dataset_url = Body z true ->
  zip_read z = Members ms true ->
  write_members base ms ∅ !! csv_path_of base = Some (File c) ->
  exists w',
    fetch_ml20m_ratings (3 + d) None w = (table_of c, w') /\
    fs w' !! zip_path_of base = None /\
    fs w' !! csv_path_of base = Some (File c) /\
    calls w' = calls w1 ++
      [EvPrint "Downloading data..."; EvUrlopen dataset_url;
       EvOpenWb (zip_path_of base);
       EvPrint "Unzipping data..."; EvExtractAll (zip_path_of base) base;
       EvRemove (zip_path_of base); EvReadCsv (csv_path_of base)].
Proof.
  intros Hg _ Hc Hz Hu Hr Hm.
  rewrite <- (get_data_dir_path_csv _ _ _ Hg) in Hc.
  rewrite <- (get_data_dir_path_zip _ _ _ Hg) in Hz.
  set (w2 := downloaded base z w1).
  exists (log (EvReadCsv (csv_path_of base)) (unzipped base ms w2)).
  change (3 + d)%nat with (S (S (S d))). split; [|split; [|split]].
  - rewrite (fetch_empty _ w w1 base Hg Hc Hz), Hu. fold w2.
    apply (fetch_after_unzip d w2 w2 base z c ms); try done.
    + by apply (located_downloaded w w1).
    + unfold w2. rewrite downloaded_lookup by apply csv_path_ne_zip_path. exact Hc.
    + apply downloaded_zip.
  - apply unzipped_zip_gone.
  - by apply unzipped_csv.
  - change (calls (unzipped base ms w2) ++ [EvReadCsv (csv_path_of base)] =
            calls w1 ++
              [EvPrint "Downloading data..."; EvUrlopen dataset_url;
               EvOpenWb (zip_path_of base);
               EvPrint "Unzipping data..."; EvExtractAll (zip_path_of base) base;
               EvRemove (zip_path_of base); EvReadCsv (csv_path_of base)]).
    rewrite unzipped_calls. unfold w2. rewrite downloaded_calls.
    by rewrite <- !app_assoc.
Qed.

(** X8. An archive that extracts without producing the source file is
    removed all the same, and the re-entered call then behaves as from the
    empty cache: it takes the download branch. *)
Theorem archive_without_source_redownloads (d : nat) (w w1 : world) (base z : string)
  (ms : list (string * string)) :
  get_data_dir_path None w = (Ret base, w1) ->
  fs w !! csv_path_of base = None ->
  fs w !! zip_path_of base = Some (File z) ->
  zip_read z = Members ms true ->
  write_members base ms ∅ !! csv_path_of base = None ->
  fs (unzipped base ms w1) !! zip_path_of base = None /\
  fetch_ml20m_ratings (S (S d)) None w =
    match urlopen dataset_url with
    | Unreachable => (Raise URLError, requesting (unzipped base ms w1))
    | Body data true =>
        fetch_ml20m_ratings d None (downloaded base data (unzipped base ms w1))
    | Body data false =>
        (Raise IncompleteRead, downloaded base data (unzipped base ms w1))
    | NoRequestModule =>
        (Raise (AttributeError "request"),
         log (EvPrint "Downloading data...") (unzipped base ms w1))
    end.
Proof.
  intros Hg Hc Hz Hr Hm.
  rewrite <- (get_data_dir_path_csv _ _ _ Hg) in Hc.
  rewrite <- (get_data_dir_path_zip _ _ _ Hg) in Hz.
  split; [apply unzipped_zip_gone|].
  rewrite (fetch_archive_ready (S d) w w1 base (File z) Hg Hc Hz), Hr.
  apply fetch_empty.
  - by apply (located_unzipped w w1).
  - rewrite unzipped_lookup by apply csv_path_ne_zip_path.
    by rewrite write_members_lookup, Hm.
  - apply unzipped_zip_gone.
Qed.

(** X9. No convergence guard: when the remote archive extracts but holds no
    source file, a call that starts without the source file downloads,
    extracts and removes over and over, and ends in [RecursionError] however
    many frames it is given. *)
Theorem missing_source_never_converges (d : nat) (w w1 : world) (base z : string)
  (ms : list (string * string)) :
  get_data_dir_path None w = (Ret base, w1) ->
  fs w !! csv_path_of base = None ->
  fs w !! zip_path_of base = None \/ fs w !! zip_path_of base = Some (File z) ->
  urlopen dataset_url = Body z true ->
  zip_read z = Members ms true ->
  write_members base ms ∅ !! csv_path_of base = None ->
  fst (fetch_ml20m_ratings d None w) = Raise RecursionError.
Proof.
  intros Hg Hc Hz Hu Hr Hm.
  rewrite <- (get_data_dir_path_csv _ _ _ Hg) in Hc.
  rewrite <- (get_data_dir_path_zip _ _ _ Hg) in Hz.
  revert w w1 Hg Hc Hz. induction d as [|d IH]; intros w w1 Hg Hc Hz; [reflexivity|].
  destruct Hz as [Hz|Hz].
  - rewrite (fetch_empty d w w1 base Hg Hc Hz), Hu.
    apply (IH _ _ (located_downloaded w w1 base z Hg)).
    + rewrite downloaded_lookup by apply csv_path_ne_zip_path. exact Hc.
    + right. apply downloaded_zip.
  - rewrite (fetch_archive_ready d w w1 base (File z) Hg Hc Hz), Hr.
    apply (IH _ _ (located_unzipped w w1 base ms Hg)).
    + rewrite unzipped_lookup by apply csv_path_ne_zip_path.
      by rewrite write_members_lookup, Hm.
    + left. apply unzipped_zip_gone.
Qed.

(** X10. After a download that broke off, the partial file is what the next
    call works on: it does not request the download again but tries to
    extract the partial file, and when that file is not a readable archive it
    raises [BadZipFile] and leaves the filesystem as it found it, so every
    further call does the same. *)
Theorem broken_download_blocks_retry (d d2 : nat) (w w1 : world) (base data : string) :
  get_data_dir_path None w = (Ret base, w1) ->
  fs w !! csv_path_of base = None ->
  fs w !! zip_path_of base = None ->
  urlopen dataset_url = Body data false ->
  zip_read data = NotAZip ->
  fetch_ml20m_ratings (S d) None w = (Raise IncompleteRead, downloaded base data w1) /\
  (forall w2,
     environ w2 = environ w ->
     fs w2 = fs (downloaded base data w1) ->
     fetch_ml20m_ratings (S d2) None w2 = (Raise BadZipFile, unzipping base w2) /\
     environ (unzipping base w2) = environ w /\
     fs (unzipping base w2) = fs (downloaded base data w1)).
Proof.
  intros Hg Hc Hz Hu Hr.
  rewrite <- (get_data_dir_path_csv _ _ _ Hg) in Hc.
  rewrite <- (get_data_dir_path_zip _ _ _ Hg) in Hz.
  split; [by rewrite (fetch_empty d w w1 base Hg Hc Hz), Hu|].
  intros w2 He Hfs. split; [|split; [exact He | exact Hfs]].
  destruct (get_data_dir_path_Ret w w1 base Hg) as (Hb & Henv & Hdir & _).
  assert (Hg2 : get_data_dir_path None w2 = (Ret base, w2)).
  { apply get_data_dir_path_stable; [by rewrite He|].
    rewrite Hfs, downloaded_lookup by (intros E; by apply (zip_path_ne_base base)).
    exact Hdir. }
  rewrite (fetch_archive_ready d2 w2 w2 base (File data) Hg2).
  - by rewrite Hr.
  - rewrite Hfs, downloaded_lookup by apply csv_path_ne_zip_path. exact Hc.
  - rewrite Hfs. apply downloaded_zip.
Qed.

End EmptyCache.

Lemma empty_cache_resolution_witness :
  exists w',
    @fetch_ml20m_ratings Demo.good 3 None Demo.w_empty =
      (@table_of Demo.good Demo.ratings_csv, w') /\
    fs w' !! @zip_path_of Demo.base = None /\
    fs w' !! @csv_path_of Demo.base = Some (File Demo.ratings_csv) /\
    calls w' = calls Demo.w_empty ++
      [EvPrint "Downloading data..."; EvUrlopen dataset_url;
       EvOpenWb (@zip_path_of Demo.base);
       EvPrint "Unzipping data..."; EvExtractAll (@zip_path_of Demo.base) Demo.base;
       EvRemove (@zip_path_of Demo.base); EvReadCsv (@csv_path_of Demo.base)].
Proof.
  apply (@empty_cache_resolution Demo.good 0 Demo.w_empty Demo.w_empty Demo.base
           Demo.zip_bytes Demo.ratings_csv Demo.zip_members);
    vm_compute; reflexivity.
Defined.

Lemma archive_without_source_redownloads_witness :
  fs (unzipped Demo.base [("ml-20m/README.txt", "MovieLens 20M")] Demo.w_archive)
    !! @zip_path_of Demo.base = None /\
  @fetch_ml20m_ratings Demo.no_source 3 None Demo.w_archive =
    @fetch_ml20m_ratings Demo.no_source 1 None
      (downloaded Demo.base Demo.zip_bytes
         (unzipped Demo.base [("ml-20m/README.txt", "MovieLens 20M")] Demo.w_archive)).
Proof.
  apply (@archive_without_source_redownloads Demo.no_source 1 Demo.w_archive Demo.w_archive
           Demo.base Demo.zip_bytes [("ml-20m/README.txt", "MovieLens 20M")]);
    vm_compute; reflexivity.
Defined.

Lemma missing_source_never_converges_witness :
  fst (@fetch_ml20m_ratings Demo.no_source 40 None Demo.w_empty) = Raise RecursionError.
Proof.
  apply (@missing_source_never_converges Demo.no_source 40 Demo.w_empty Demo.w_empty
           Demo.base Demo.zip_bytes [("ml-20m/README.txt", "MovieLens 20M")]);
    try (vm_compute; reflexivity).
  left. vm_compute. reflexivity.
Defined.

Lemma broken_download_blocks_retry_witness :
  @fetch_ml20m_ratings Demo.flaky 3 None Demo.w_empty =
    (Raise IncompleteRead, downloaded Demo.base "PK" Demo.w_empty) /\
  @fetch_ml20m_ratings Demo.flaky 3 None (downloaded Demo.base "PK" Demo.w_empty) =
    (Raise BadZipFile, unzipping Demo.base (downloaded Demo.base "PK" Demo.w_empty)).
Proof.
  destruct (@broken_download_blocks_retry Demo.flaky 2 2 Demo.w_empty Demo.w_empty
              Demo.base "PK"
              ltac:(vm_compute; reflexivity) ltac:(vm_compute; reflexivity)
              ltac:(vm_compute; reflexivity) ltac:(vm_compute; reflexivity)
              ltac:(vm_compute; reflexivity)) as [Hfirst Hnext].
  split; [exact Hfirst|].
  apply (Hnext (downloaded Demo.base "PK" Demo.w_empty)); reflexivity.
Defined.

(** ** Further properties: a file already in order *)

Section Chronological.
Context `{Platform}.

Lemma sort_values_sorted_id (df : DataFrame) :
  StronglySorted Z.le (timestamps df) -> sort_values df = df.
Proof.
  induction df as [|r df IH]; [reflexivity|]. simpl. intros Hs.
  apply StronglySorted_cons in Hs as [Hall Hs]. fold (sort_values df).
  rewrite (IH Hs). destruct df as [|r' df']; [reflexivity|]. simpl.
  apply Forall_cons in Hall as [Hle _].
  by rewrite (proj2 (Z.leb_le _ _) Hle).
Qed.

Lemma reset_index_range_index (rows : list RatingsRecord) :
  reset_index (range_index rows) = range_index rows.
Proof.
  unfold reset_index. by rewrite range_index_length, range_index_rows.
Qed.

Lemma timestamps_range_index (rows : list RatingsRecord) :
  timestamps (range_index rows) = map timestamp rows.
Proof.
  unfold timestamps. rewrite <- (map_map snd timestamp). by rewrite range_index_rows.
Qed.

(** X11. A source file whose rows, once converted, have strictly increasing
    values in the [timestamp] column loads as those rows in file order, the
    k-th data row at index k. The values meant are the naive local datetimes
    that [date_parser] returns, not the epoch numbers written in the file:
    where the local clock is set back, a later epoch can give an earlier
    value, and such a file is not covered. *)
Theorem chronological_file_keeps_order (w : world) (p data header : string)
  (ls : list string) (rows : list RatingsRecord) :
  fs w !! p = Some (File data) ->
  csv_records data = header :: ls ->
  parse_rows ls = Some rows ->
  StronglySorted Z.lt (map timestamp rows) ->
  ml20m_ratings_csv_to_df p w =
    (Ret (combine (seq 0 (length rows)) rows), log (EvReadCsv p) w).
Proof.
  intros Hp Hrec Hrows Hs.
  rewrite (ml20m_ratings_csv_to_df_file p data w Hp).
  unfold table_of, parse_csv. rewrite Hrec, Hrows.
  rewrite sort_values_sorted_id, reset_index_range_index; [reflexivity|].
  rewrite timestamps_range_index.
  induction Hs as [|t ts Hs IH Hall]; constructor; [exact IH|].
  eapply Forall_impl; [exact Hall|]. intros; simpl in *. lia.
Qed.

End Chronological.

Lemma chronological_file_keeps_order_witness :
  @ml20m_ratings_csv_to_df Demo.good "/tmp/chrono.csv" Demo.w_chrono =
    (Ret (combine (seq 0 (length Demo.chrono_rows)) Demo.chrono_rows),
     log (EvReadCsv "/tmp/chrono.csv") Demo.w_chrono).
Proof.
  apply (@chronological_file_keeps_order Demo.good Demo.w_chrono "/tmp/chrono.csv"
           Demo.chrono_csv "userId,movieId,rating,timestamp" Demo.chrono_lines
           Demo.chrono_rows); try (vm_compute; reflexivity).
  repeat constructor.
Defined.

(** ** Further properties: the request module *)

Section RequestModule.
Context `{Platform}.

(** X12. The module imports [urllib] but not [urllib.request]. In an
    interpreter where nothing else has imported it, a call from the empty
    cache announces the download and raises [AttributeError] on the lookup of
    [urllib.request]: no request is made, no file is created, and the
    filesystem is as it was once the data directory had been located. *)
Theorem empty_cache_needs_urllib_request (d : nat) (w w1 : world) (base : string) :
  get_data_dir_path None w = (Ret base, w1) ->
  fs w !! csv_path_of base = None ->
  fs w !! zip_path_of base = None ->
  urlopen dataset_url = NoRequestModule ->
  fetch_ml20m_ratings (S d) None w =
    (Raise (AttributeError "request"), log (EvPrint "Downloading data...") w1) /\
  fs (snd (fetch_ml20m_ratings (S d) None w)) = fs w1 /\
  fs (snd (fetch_ml20m_ratings (S d) None w)) !! zip_path_of base = None /\
  exists evs,
    calls (snd (fetch_ml20m_ratings (S d) None w)) = calls w ++ evs /\
    Forall (fun e => is_acquisition e = false) evs.
Proof.
  intros Hg Hc Hz Hu.
  rewrite <- (get_data_dir_path_csv _ _ _ Hg) in Hc.
  rewrite <- (get_data_dir_path_zip _ _ _ Hg) in Hz.
  rewrite (fetch_empty d w w1 base Hg Hc Hz), Hu.
  split; [reflexivity|]. split; [reflexivity|]. split; [exact Hz|].
  destruct (get_data_dir_path_calls w w1 base Hg) as [Hcalls|Hcalls]; simpl; rewrite Hcalls.
  - exists [EvPrint "Downloading data..."]. split; [reflexivity|]. by repeat constructor.
  - exists [EvMakedirs base; EvPrint "Downloading data..."].
    split; [by rewrite <- app_assoc|]. by repeat constructor.
Qed.

End RequestModule.

Lemma empty_cache_needs_urllib_request_witness :
  @fetch_ml20m_ratings Demo.bare 3 None Demo.w_fresh =
    (Raise (AttributeError "request"),
     log (EvPrint "Downloading data...") (snd (@get_data_dir_path Demo.bare None Demo.w_fresh))).
Proof.
  apply (@empty_cache_needs_urllib_request Demo.bare 2 Demo.w_fresh
           (snd (@get_data_dir_path Demo.bare None Demo.w_fresh)) Demo.base);
    vm_compute; reflexivity.
Defined.
